(** * licitaciones-api: the PDF upload-and-relay server

    A shallow embedding of the two server scripts of the repository:
    [server.js] (module [ServerJs]) and its batch variant (module
    [BatchJs]).  Both scripts share their configuration block, the multer
    disk storage, the upload filter, the health route, the cleanup timer and
    the error-handling middleware; they differ in the upload route.

    Effects are explicit.  A [World] holds the file system, the clock, the
    number of random draws made so far and the log of outbound POSTs; a
    computation is a function from a state to a result (a value or a thrown
    JavaScript error) and a new state.  Callbacks of the asynchronous [fs]
    calls are run in program order. *)

From Stdlib Require Import ZArith String Ascii List Lia Bool.
From stdpp Require Import base option list gmap strings pretty.

(** ** JavaScript values and string primitives *)

Module Js.

(** Truthiness of a value that is [undefined] or a string: [undefined] and
    the empty string are falsy, every other string is truthy. *)
Definition truthy (v : option string) : bool :=
  match v with
  | Some s => negb (String.eqb s "")
  | None => false
  end.

(** [v || d] for such a value. *)
Definition or_else (v : option string) (d : string) : string :=
  match v with
  | Some s => if String.eqb s "" then d else s
  | None => d
  end.

(** [s.substring(n)]: what is left of [s] from index [n] on. *)
Fixpoint substring_from (n : nat) (s : string) : string :=
  match n, s with
  | O, _ => s
  | S _, EmptyString => EmptyString
  | S n', String _ s' => substring_from n' s'
  end.

(** Two decimal digits of a number below one hundred. *)
Definition two_digits (n : Z) : string :=
  if (n <? 10)%Z then "0" +:+ pretty n else pretty n.

(** [(num / den).toFixed(2)] when the quotient is exact in a double, as it
    is for a byte count divided by 1024 twice: the hundredths are rounded
    to the nearest integer, the larger one on a tie. *)
Definition toFixed2 (num den : Z) : string :=
  let n := ((200 * num + den) / (2 * den))%Z in
  pretty (n / 100)%Z +:+ "." +:+ two_digits (n mod 100)%Z.

(** [lo <= status && status < hi] *)
Definition in_range (lo hi status : Z) : bool :=
  (lo <=? status)%Z && (status <? hi)%Z.

(** A value of [req.body].  multer's append-field binds a field name to
    a string, to an array (a repeated name, a name ending in brackets) or to
    an object (a bracketed name). *)
#[local] Set Warnings "-register-all".
Inductive Value :=
| VString (s : string)
| VArray (items : list Value)
| VObject (props : list (string * Value)).

(** [v || d] for a property of [req.body]: [undefined] and the empty string
    are falsy, every other string and every array and object are truthy. *)
Definition or_value (v : option Value) (d : string) : Value :=
  match v with
  | None => VString d
  | Some (VString s) => if String.eqb s "" then VString d else VString s
  | Some other => other
  end.

(** The string a value is; only strings get past [formData.append]. *)
Definition as_text (v : Value) : string :=
  match v with
  | VString s => s
  | _ => ""
  end.

End Js.

(** ** Dates *)

Module JsDate.

Local Open Scope Z_scope.

Definition pad (width : nat) (n : Z) : string :=
  let digits := pretty n in
  String.concat "" (replicate (width - String.length digits) "0") +:+ digits.

(** The civil date of a day count since 1970-01-01 (proleptic Gregorian
    calendar): year, month, day. *)
Definition civil (days : Z) : Z * Z * Z :=
  let z := days + 719468 in
  let era := z / 146097 in
  let doe := z - era * 146097 in
  let yoe := (doe - doe / 1460 + doe / 36524 - doe / 146096) / 365 in
  let doy := doe - (365 * yoe + yoe / 4 - yoe / 100) in
  let mp := (5 * doy + 2) / 153 in
  let d := doy - (153 * mp + 2) / 5 + 1 in
  let m := if mp <? 10 then mp + 3 else mp - 9 in
  let y := yoe + era * 400 + (if m <=? 2 then 1 else 0) in
  (y, m, d).

(** [new Date(ms).toISOString()], for the years 0000 to 9999. *)
Definition toISOString (ms : Z) : string :=
  let '(y, m, d) := civil (ms / 86400000) in
  let r := ms mod 86400000 in
  pad 4 y +:+ "-" +:+ pad 2 m +:+ "-" +:+ pad 2 d +:+ "T"
    +:+ pad 2 (r / 3600000) +:+ ":" +:+ pad 2 (r / 60000 mod 60) +:+ ":"
    +:+ pad 2 (r / 1000 mod 60) +:+ "." +:+ pad 3 (r mod 1000) +:+ "Z".

End JsDate.

(** ** The staged file name (multer.diskStorage, [filename]) *)

Module Naming.

Definition between (lo hi : nat) (c : ascii) : bool :=
  (lo <=? nat_of_ascii c)%nat && (nat_of_ascii c <=? hi)%nat.

(** The character class [a-zA-Z0-9.-]. *)
Definition in_class (c : ascii) : bool :=
  between 97 122 c || between 65 90 c || between 48 57 c
  || Ascii.eqb c "." || Ascii.eqb c "-".

Definition underscore : ascii := "_"%char.

(** [.replace(/[^a-zA-Z0-9.-]/g, '_')] *)
Fixpoint replace_outside (s : string) : string :=
  match s with
  | EmptyString => EmptyString
  | String c s' =>
      String (if in_class c then c else underscore) (replace_outside s')
  end.

(** [.replace(/_+/g, '_')] *)
Fixpoint collapse_underscores (s : string) : string :=
  match s with
  | EmptyString => EmptyString
  | String c s' =>
      if Ascii.eqb c underscore then
        match s' with
        | String c' _ =>
            if Ascii.eqb c' underscore then collapse_underscores s'
            else String c (collapse_underscores s')
        | EmptyString => String c EmptyString
        end
      else String c (collapse_underscores s')
  end.

Definition sanitize (originalname : string) : string :=
  collapse_underscores (replace_outside originalname).

(** [`${timestamp}-${random}-${sanitized}`], where [timestamp] is
    [Date.now()] and [random36] is [Math.random().toString(36)]. *)
Definition filename (timestamp : Z) (random36 originalname : string) : string :=
  let random := Js.substring_from 7 random36 in
  pretty timestamp +:+ "-" +:+ random +:+ "-" +:+ sanitize originalname.

(** The sanitizer the specification describes: characters outside the
    class are stripped, then repeated characters are collapsed. *)
Fixpoint strip_outside (s : string) : string :=
  match s with
  | EmptyString => EmptyString
  | String c s' =>
      if in_class c then String c (strip_outside s') else strip_outside s'
  end.

Fixpoint collapse_repeats (s : string) : string :=
  match s with
  | EmptyString => EmptyString
  | String c s' =>
      match s' with
      | String c' _ =>
          if Ascii.eqb c c' then collapse_repeats s'
          else String c (collapse_repeats s')
      | EmptyString => String c EmptyString
      end
  end.

Definition described_sanitize (originalname : string) : string :=
  collapse_repeats (strip_outside originalname).

Definition described_filename (timestamp : Z) (random36 originalname : string) : string :=
  pretty timestamp +:+ "-" +:+ Js.substring_from 7 random36 +:+ "-"
    +:+ described_sanitize originalname.

(** One pass over the name: every maximal run of characters outside the
    class becomes a single underscore, the other characters are kept.
    [after_run] says that the previous character was outside the class. *)
Fixpoint one_pass (after_run : bool) (s : string) : string :=
  match s with
  | EmptyString => EmptyString
  | String c s' =>
      if in_class c then String c (one_pass false s')
      else if after_run then one_pass true s'
      else String underscore (one_pass true s')
  end.

(** No two adjacent underscores. *)
Fixpoint no_double_underscore (s : string) : bool :=
  match s with
  | EmptyString => true
  | String c s' =>
      match s' with
      | String c' _ =>
          negb (Ascii.eqb c underscore && Ascii.eqb c' underscore)
          && no_double_underscore s'
      | EmptyString => true
      end
  end.

Definition class_or_underscore (c : ascii) : bool :=
  in_class c || Ascii.eqb c underscore.

Fixpoint all_chars (p : ascii -> bool) (s : string) : bool :=
  match s with
  | EmptyString => true
  | String c s' => p c && all_chars p s'
  end.

End Naming.

(** ** Errors, responses and the outside world *)

(** The error codes of multer's [MulterError], with the message the library
    attaches to each (multer, lib/multer-error.js). *)
Inductive MulterCode :=
| LIMIT_PART_COUNT | LIMIT_FILE_SIZE | LIMIT_FILE_COUNT | LIMIT_FIELD_KEY
| LIMIT_FIELD_VALUE | LIMIT_FIELD_COUNT | LIMIT_UNEXPECTED_FILE
| MISSING_FIELD_NAME.

Definition code_name (c : MulterCode) : string :=
  match c with
  | LIMIT_PART_COUNT => "LIMIT_PART_COUNT"
  | LIMIT_FILE_SIZE => "LIMIT_FILE_SIZE"
  | LIMIT_FILE_COUNT => "LIMIT_FILE_COUNT"
  | LIMIT_FIELD_KEY => "LIMIT_FIELD_KEY"
  | LIMIT_FIELD_VALUE => "LIMIT_FIELD_VALUE"
  | LIMIT_FIELD_COUNT => "LIMIT_FIELD_COUNT"
  | LIMIT_UNEXPECTED_FILE => "LIMIT_UNEXPECTED_FILE"
  | MISSING_FIELD_NAME => "MISSING_FIELD_NAME"
  end.

Definition code_message (c : MulterCode) : string :=
  match c with
  | LIMIT_PART_COUNT => "Too many parts"
  | LIMIT_FILE_SIZE => "File too large"
  | LIMIT_FILE_COUNT => "Too many files"
  | LIMIT_FIELD_KEY => "Field name too long"
  | LIMIT_FIELD_VALUE => "Field value too long"
  | LIMIT_FIELD_COUNT => "Too many fields"
  | LIMIT_UNEXPECTED_FILE => "Unexpected field"
  | MISSING_FIELD_NAME => "Field name missing"
  end.

(** The JavaScript errors the scripts can meet. *)
Inductive Error :=
| JsError (msg : string)                       (* new Error(msg) *)
| MulterError (mcode : MulterCode) (field : string)
| AxiosError (acode msg : string)              (* no response was received *)
| FsError (fcode path : string).               (* ENOENT, EISDIR *)

Definition message (e : Error) : string :=
  match e with
  | JsError m => m
  | MulterError c _ => code_message c
  | AxiosError _ m => m
  | FsError c p => c +:+ ": " +:+ p
  end.

(** [err instanceof multer.MulterError] *)
Definition is_multer_error (e : Error) : bool :=
  match e with MulterError _ _ => true | _ => false end.

(** [err.code], [undefined] on a plain [Error]. *)
Definition error_code (e : Error) : option string :=
  match e with
  | JsError _ => None
  | MulterError c _ => Some (code_name c)
  | AxiosError c _ => Some c
  | FsError c _ => Some c
  end.

(** The body of a downstream answer: its [jobId] property when it has one,
    and the rest of the payload, which the scripts never inspect. *)
Record Data := { jobId : option string; payload : string }.

(** One part of an outbound multipart form. *)
Inductive Part :=
| FilePart (name source filename contentType : string)
| FieldPart (name value : string).


Definition is_file_part (p : Part) : bool :=
  match p with FilePart _ _ _ _ => true | FieldPart _ _ => false end.

(** The value of the first field called [n] in a form. *)
Fixpoint field_value (n : string) (form : list Part) : option string :=
  match form with
  | [] => None
  | FieldPart n' v :: rest => if String.eqb n n' then Some v else field_value n rest
  | FilePart _ _ _ _ :: rest => field_value n rest
  end.

(** An outbound POST as axios receives it. *)
Record Relay := { url : option string; form : list Part; timeout : Z }.

(** What the network does with a POST: it answers with a status and a body,
    or no answer arrives; either takes [elapsed] milliseconds.  [Relocated]
    is an answer with a status in 300..399 and a [Location] header: [next]
    is what comes of the request to that location, [wait] milliseconds
    later. *)
Inductive Outcome :=
| Responded (status : Z) (data : Data)
| Unreachable (acode msg : string)
| Relocated (status : Z) (location : string) (wait : Z) (next : Outcome).

Record Reply := { elapsed : Z; outcome : Outcome }.

(** The JSON bodies the scripts send.  Fixed human-readable [message]
    fields are left out; [processingTime] and [uptime] are kept as the
    millisecond counts they are rendered from. *)
Inductive Body :=
| HealthBody (status timestamp : string) (uptime : Z) (n8nConnected : bool)
| Failure (error : string)
| FailureHint (error hint : string)
| TooLarge (error maxSize : string)
| N8nStatus (error : string) (status : Z)
| N8nDetails (error : string) (details : Data)
| Uploaded (fileName : string) (fileSize : Z) (fileSizeMB : string)
    (processingTime : Z) (jobId : string)
| BatchUploaded (batchId : string) (totalFiles : nat) (processingTime : Z)
    (n8nResponse : Data).

Record Response := { statusCode : Z; body : Body }.

(** [res.json(b)] and [res.status(c).json(b)] *)
Definition res_json (b : Body) : Response := {| statusCode := 200; body := b |}.
Definition res_status_json (c : Z) (b : Body) : Response := {| statusCode := c; body := b |}.

(** ** The file system and the state of the process *)

Inductive Kind := RegularFile | Directory.

Record Entry := { kind : Kind; size : Z; mtimeMs : Z }.

Record World := {
  disk : gmap string Entry;   (* path to entry *)
  clock : Z;                  (* Date.now() *)
  started : Z;                (* the instant the process started *)
  draws : nat;                (* calls to Math.random() so far *)
  sent : list Relay           (* the calls of axios.post that went out, oldest first *)
}.

Definition set_disk (d : gmap string Entry) (w : World) : World :=
  {| disk := d; clock := clock w; started := started w; draws := draws w; sent := sent w |}.

Definition tick (dt : Z) (w : World) : World :=
  {| disk := disk w; clock := (clock w + dt)%Z; started := started w; draws := draws w; sent := sent w |}.

Definition drawn (w : World) : World :=
  {| disk := disk w; clock := clock w; started := started w; draws := S (draws w); sent := sent w |}.

Definition logged (r : Relay) (w : World) : World :=
  {| disk := disk w; clock := clock w; started := started w; draws := draws w; sent := sent w ++ [r] |}.

(** ** Computations: state and exceptions *)

Inductive Result (A : Type) :=
| Ok (a : A)
| Throw (e : Error).
Arguments Ok {A} a.
Arguments Throw {A} e.

Definition M (S A : Type) : Type := S -> Result A * S.

(** Running a computation from a state. *)
Definition run {S A : Type} (m : M S A) (s : S) : Result A * S := m s.

Definition ret {S A : Type} (a : A) : M S A := fun s => (Ok a, s).

Definition bind {S A B : Type} (m : M S A) (k : A -> M S B) : M S B :=
  fun s => match m s with
           | (Ok a, s') => k a s'
           | (Throw e, s') => (Throw e, s')
           end.

Definition throw {S A : Type} (e : Error) : M S A := fun s => (Throw e, s).

(** [try { body } catch (error) { handler error }] *)
Definition try_catch {S A : Type} (body : M S A) (handler : Error -> M S A) : M S A :=
  fun s => match body s with
           | (Ok a, s') => (Ok a, s')
           | (Throw e, s') => handler e s'
           end.

Notation "'let*' x ':=' m 'in' k" := (bind m (fun x => k))
  (at level 10, x name, m at level 100, k at level 200).
Notation "m ';;' k" := (bind m (fun _ => k))
  (at level 100, k at level 200, right associativity).

(** [xs.forEach(x => f x)] *)
Fixpoint for_each {S A : Type} (f : A -> M S unit) (xs : list A) : M S unit :=
  match xs with
  | [] => ret tt
  | x :: rest => f x ;; for_each f rest
  end.

(** A handler keeps its [let] variables next to the world. *)
Definition lift {L A : Type} (m : M World A) : M (L * World) A :=
  fun s => let (r, w') := m (snd s) in (r, (fst s, w')).

Definition get_local {L : Type} : M (L * World) L := fun s => (Ok (fst s), s).

Definition set_local {L : Type} (l : L) : M (L * World) unit :=
  fun s => (Ok tt, (l, snd s)).

Definition with_local {L A : Type} (l0 : L) (m : M (L * World) A) : M World A :=
  fun w => let (r, s') := m (l0, w) in (r, snd s').

(** ** Node primitives *)

Definition Date_now : M World Z := fun w => (Ok (clock w), w).

(** [path.join(dir, name)].  The normalisation Node applies to [dir] is the
    same for every entry and is left out. *)
Definition path_join (dir name : string) : string := dir +:+ "/" +:+ name.

Fixpoint strip_prefix (p s : string) : option string :=
  match p with
  | EmptyString => Some s
  | String c p' =>
      match s with
      | String d s' => if Ascii.eqb c d then strip_prefix p' s' else None
      | EmptyString => None
      end
  end.

Definition fs_existsSync (p : string) : M World bool :=
  fun w => (Ok (bool_decide (is_Some (disk w !! p))), w).

(** [fs.unlink(p, cb)]: a regular file is removed; a missing path and a
    directory are reported to the callback and nothing changes. *)
Definition fs_unlink (p : string) (cb : option Error -> M World unit) : M World unit :=
  fun w => match disk w !! p with
           | None => cb (Some (FsError "ENOENT" p)) w
           | Some e =>
               match kind e with
               | Directory => cb (Some (FsError "EISDIR" p)) w
               | RegularFile => cb None (set_disk (delete p (disk w)) w)
               end
           end.

(** [fs.stat(p, cb)] *)
Definition fs_stat (p : string) (cb : option Error -> option Entry -> M World unit) : M World unit :=
  fun w => match disk w !! p with
           | None => cb (Some (FsError "ENOENT" p)) None w
           | Some e => cb None (Some e) w
           end.

(** The name of a directory entry is not empty and holds no separator. *)
Fixpoint has_separator (s : string) : bool :=
  match s with
  | EmptyString => false
  | String c s' => Ascii.eqb c "/" || has_separator s'
  end.

Definition is_entry_name (s : string) : bool :=
  negb (String.eqb s "") && negb (has_separator s).

(** [fs.readdir(dir, cb)]: the names of the entries of [dir] itself, not of
    its sub-directories. *)
Definition entries (dir : string) (d : gmap string Entry) : list string :=
  filter (fun name => is_entry_name name = true)
    (omap (fun kv => strip_prefix (dir +:+ "/") (fst kv)) (map_to_list d)).

Definition fs_readdir (dir : string) (cb : option Error -> list string -> M World unit) : M World unit :=
  fun w => cb None (entries dir (disk w)) w.

(** The callback [() => {}] *)
Definition ignore_error : option Error -> M World unit := fun _ => ret tt.

(** [fs.createReadStream(p)]: a stream on [p].  When the file cannot be
    opened or read, the stream's error is an event; form-data holds it back
    until the form is piped into the request, see [first_unreadable] and
    [axios_post]. *)
Definition fs_createReadStream (p : string) : string := p.

(** The error of the first file stream of a form that cannot be read: its
    file is missing or is a directory. *)
Fixpoint first_unreadable (d : gmap string Entry) (fd : list Part) : option Error :=
  match fd with
  | [] => None
  | FieldPart _ _ :: rest => first_unreadable d rest
  | FilePart _ src _ _ :: rest =>
      match d !! src with
      | None => Some (FsError "ENOENT" src)
      | Some e =>
          match kind e with
          | Directory => Some (FsError "EISDIR" src)
          | RegularFile => first_unreadable d rest
          end
      end
  end.

(** ** form-data *)

(** [formData.append(name, value)] on the form built so far: a string is
    appended; an array makes form-data raise its error, which nobody
    listens to, and an object is taken for a stream and fails as one.  Both
    are thrown out of [append]. *)
Definition form_append (fd : Result (list Part)) (name : string) (v : Js.Value) : Result (list Part) :=
  match fd with
  | Throw e => Throw e
  | Ok parts =>
      match v with
      | Js.VString s => Ok (parts ++ [FieldPart name s])
      | Js.VArray _ => Throw (JsError "Arrays are not supported.")
      | Js.VObject _ => Throw (JsError "source.on is not a function")
      end
  end.

(** [formData.append(name, stream, { filename, contentType })] *)
Definition form_append_file (fd : Result (list Part)) (name stream filename contentType : string) : Result (list Part) :=
  match fd with
  | Throw e => Throw e
  | Ok parts => Ok (parts ++ [FilePart name stream filename contentType])
  end.

(** A computation that has the given result and no effect. *)
Definition from_result {S A : Type} (r : Result A) : M S A := fun s => (r, s).

(** ** Configuration and start-up *)

(** [process.env]: each variable is unset or a string.  The size limit is
    read as the number its string denotes. *)
Record Env := {
  env_PORT : option string;
  env_N8N_WEBHOOK_URL : option string;
  env_MAX_FILE_SIZE_MB : option Z;
  env_TEMP_DIR : option string
}.

Record Config := {
  PORT : string;
  N8N_WEBHOOK_URL : option string;
  MAX_FILE_SIZE : Z;
  TEMP_DIR : string;
  limit_label : string        (* `${process.env.MAX_FILE_SIZE_MB || 80}MB` *)
}.

(** The [const] declarations at the top of the script. *)
Definition load_config (env : Env) : Config :=
  {| PORT := Js.or_else (env_PORT env) "3000";
     N8N_WEBHOOK_URL := env_N8N_WEBHOOK_URL env;
     MAX_FILE_SIZE := (default 80 (env_MAX_FILE_SIZE_MB env) * 1024 * 1024)%Z;
     TEMP_DIR := Js.or_else (env_TEMP_DIR env) "./uploads";
     limit_label := pretty (default 80%Z (env_MAX_FILE_SIZE_MB env)) +:+ "MB" |}.

Inductive Boot :=
| Exited (exit_code : Z)
| Running (cfg : Config).

(** The script up to [app.listen]: [process.exit(1)] without a webhook URL,
    otherwise the staging directory is created when it is missing. *)
Definition startup (env : Env) (w : World) : Boot * World :=
  let cfg := load_config env in
  if negb (Js.truthy (N8N_WEBHOOK_URL cfg)) then (Exited 1, w)
  else if bool_decide (is_Some (disk w !! TEMP_DIR cfg)) then (Running cfg, w)
  else (Running cfg,
        set_disk (<[TEMP_DIR cfg := {| kind := Directory; size := 0; mtimeMs := clock w |}]> (disk w)) w).

(** What the process does not control: the successive values of
    [Math.random().toString(36)], the downstream's reaction to a POST,
    whether the multipart parser reports a file of exactly the limit as too
    large (busboy 1.x does, busboy 0.x does not), and how many redirects
    axios follows before it gives up (21 with the defaults of
    follow-redirects). *)
Record External := {
  random36 : nat -> string;
  downstream : Relay -> Reply;
  limit_inclusive : bool;
  max_redirects : nat
}.

(** ** Incoming requests *)

(** A file part as it arrives: its field name, the declared file name and
    content type, and the number of bytes that follow. *)
Record Upload := {
  up_fieldname : string;
  up_originalname : string;
  up_mimetype : string;
  up_size : Z
}.

(** A multipart request: its text fields, as multer's append-field
    assembles them into [req.body], and its file parts in order of
    arrival.  The text fields are those multer accepts: a request with a
    field over busboy's limits (a name over 100 bytes, a value over 1 MB),
    which multer refuses, is not described. *)
Record Incoming := {
  in_fields : gmap string Js.Value;
  in_files : list Upload
}.

(** [req.files[i]] once multer has stored the part. *)
Record File := {
  fieldname : string;
  originalname : string;
  mimetype : string;
  destination : string;
  filename : string;
  path : string;
  fsize : Z
}.

(** The request the route handler sees. *)
Record Request := {
  req_file : option File;          (* req.file *)
  req_files : option (list File);  (* req.files *)
  req_body : gmap string Js.Value  (* req.body *)
}.

Section Script.

Variable cfg : Config.
Variable ext : External.

Definition Math_random36 : M World string :=
  fun w => (Ok (random36 ext (draws w)), drawn w).

(** *** multer.diskStorage *)

Definition storage_destination : string := TEMP_DIR cfg.

Definition storage_filename (u : Upload) : M World string :=
  let* timestamp := Date_now in
  let* random := Math_random36 in
  ret (Naming.filename timestamp random (up_originalname u)).

(** *** The upload filter *)

(** [fileFilter]: the error handed to the callback, if any. *)
Definition fileFilter (u : Upload) : option Error :=
  if negb (String.eqb (up_mimetype u) "application/pdf")
  then Some (JsError "Solo PDFs permitidos")
  else None.

(** *** multer's middleware

    The library's side of [upload.array(name, maxCount)], after multer's
    lib/make-middleware.js and lib/index.js: a part without a file name is
    skipped; a part under another field name, or one more than [maxCount],
    is a [LIMIT_UNEXPECTED_FILE]; then [fileFilter] decides; then the
    storage writes the part, cut at [limits.fileSize], and a cut part is a
    [LIMIT_FILE_SIZE].  On any error the files written for this request are
    removed and the error goes to [next].  On success the stored files are
    [req.files]; [req.file] is only set by [upload.single]. *)

Definition over_limit (sz : Z) : bool :=
  if limit_inclusive ext then (MAX_FILE_SIZE cfg <=? sz)%Z
  else (MAX_FILE_SIZE cfg <? sz)%Z.

(** DiskStorage's [_handleFile]: the part is written under the generated
    name, at most [limits.fileSize] bytes of it. *)
Definition handle_file (u : Upload) : M World File :=
  let* name := storage_filename u in
  let p := path_join storage_destination name in
  let written := Z.min (up_size u) (MAX_FILE_SIZE cfg) in
  fun w =>
    (Ok {| fieldname := up_fieldname u; originalname := up_originalname u;
           mimetype := up_mimetype u; destination := storage_destination;
           filename := name; path := p; fsize := written |},
     set_disk (<[p := {| kind := RegularFile; size := written; mtimeMs := clock w |}]> (disk w)) w).

(** DiskStorage's [_removeFile] over the files written so far, then the
    error. *)
Definition abort {A : Type} (uploaded : list File) (e : Error) : M World A :=
  for_each (fun f => fs_unlink (path f) ignore_error) uploaded ;;
  throw e.

(** [filesLeft] is [None] when no [maxCount] was given. *)
Definition has_left (filesLeft : option nat) : bool :=
  match filesLeft with Some O => false | _ => true end.

Definition take_one (filesLeft : option nat) : option nat :=
  match filesLeft with Some n => Some (Nat.pred n) | None => None end.

Fixpoint receive (name : string) (filesLeft : option nat) (uploaded : list File)
    (parts : list Upload) : M World (list File) :=
  match parts with
  | [] => ret uploaded
  | u :: rest =>
      if String.eqb (up_originalname u) "" then receive name filesLeft uploaded rest
      else if negb (String.eqb (up_fieldname u) name && has_left filesLeft)
      then abort uploaded (MulterError LIMIT_UNEXPECTED_FILE (up_fieldname u))
      else
        match fileFilter u with
        | Some e => abort uploaded e
        | None =>
            let* f := handle_file u in
            if over_limit (up_size u)
            then abort (uploaded ++ [f]) (MulterError LIMIT_FILE_SIZE (up_fieldname u))
            else receive name (take_one filesLeft) (uploaded ++ [f]) rest
        end
  end.

(** [upload.array(name, maxCount)] *)
Definition upload_array (name : string) (maxCount : option nat) (rq : Incoming) : M World Request :=
  let* stored := receive name maxCount [] (in_files rq) in
  ret {| req_file := None; req_files := Some stored; req_body := in_fields rq |}.

(** *** axios *)

Record AxiosResponse := { ax_status : Z; ax_data : Data }.

(** axios' [settle]: a response whose status [validateStatus] refuses is
    turned into a rejection. *)
Definition settle (validateStatus : Z -> bool) (st : Z) (d : Data) : Result AxiosResponse :=
  if validateStatus st then Ok {| ax_status := st; ax_data := d |}
  else Throw (AxiosError "ERR_BAD_RESPONSE" ("Request failed with status code " +:+ pretty st)).

Definition timed_out (tmo : Z) : Error :=
  AxiosError "ECONNABORTED" ("timeout of " +:+ pretty tmo +:+ "ms exceeded").

Definition too_many_redirects : Error :=
  AxiosError "ERR_FR_TOO_MANY_REDIRECTS" "Maximum number of redirects exceeded".

(** What axios makes of an outcome that arrives [at] milliseconds after the
    call: past the timeout the call is aborted; an answer that redirects is
    followed, [fuel] times at most; any other answer is settled.  The second
    component is the time the caller has waited. *)
Fixpoint settle_chain (validateStatus : Z -> bool) (fuel : nat) (tmo at_ms : Z)
    (o : Outcome) {struct o} : Result AxiosResponse * Z :=
  if (tmo <? at_ms)%Z then (Throw (timed_out tmo), tmo)
  else
    match o with
    | Responded st d => (settle validateStatus st d, at_ms)
    | Unreachable c m => (Throw (AxiosError c m), at_ms)
    | Relocated _ _ dt next =>
        match fuel with
        | O => (Throw too_many_redirects, at_ms)
        | S fuel' => settle_chain validateStatus fuel' tmo (at_ms + dt)%Z next
        end
    end.

(** [await axios.post(url, formData, { timeout, validateStatus })].  The
    body is streamed from the files of the form: when one cannot be read the
    stream's error fails the call and the request does not go out. *)
Definition axios_post (target : option string) (fd : list Part) (tmo : Z)
    (validateStatus : Z -> bool) : M World AxiosResponse :=
  fun w =>
    let rq := {| url := target; form := fd; timeout := tmo |} in
    match first_unreadable (disk w) fd with
    | Some e => (Throw e, w)
    | None =>
        let rp := downstream ext rq in
        let settled := settle_chain validateStatus (max_redirects ext) tmo
                         (elapsed rp) (outcome rp) in
        (fst settled, tick (snd settled) (logged rq w))
    end.

(** *** GET /health *)

Definition health : M World Response :=
  fun w =>
    (Ok (res_json (HealthBody "ok" (JsDate.toISOString (clock w)) (clock w - started w)
                     (Js.truthy (N8N_WEBHOOK_URL cfg)))), w).

(** *** The cleanup timer *)

Definition maxAge : Z := 30 * 60 * 1000.

(** The callback of [fs.stat] for one entry. *)
Definition sweep_stat (now : Z) (filePath : string) (err : option Error)
    (stats : option Entry) : M World unit :=
  match err, stats with
  | None, Some st =>
      if (maxAge <? now - mtimeMs st)%Z then fs_unlink filePath ignore_error
      else ret tt
  | _, _ => ret tt
  end.

(** The callback of [fs.readdir]. *)
Definition sweep_listing (now : Z) (err : option Error) (files : list string) : M World unit :=
  match err with
  | Some _ => ret tt
  | None =>
      for_each (fun file =>
                  let filePath := path_join (TEMP_DIR cfg) file in
                  fs_stat filePath (sweep_stat now filePath)) files
  end.

(** One firing of the [setInterval] callback. *)
Definition sweep : M World unit :=
  let* now := Date_now in
  fs_readdir (TEMP_DIR cfg) (sweep_listing now).

(** *** The error-handling middleware *)

Definition error_middleware (err : Error) : Response :=
  let fallthrough := res_status_json 500 (Failure (message err)) in
  if is_multer_error err then
    if bool_decide (error_code err = Some "FILE_TOO_LARGE")
    then res_status_json 413 (TooLarge "File too large" (limit_label cfg))
    else fallthrough
  else fallthrough.

(** A route: the upload middleware, then the handler, or the error
    middleware when the upload middleware calls [next(err)]. *)
Definition route (middleware : M World Request) (handler : Request -> M World Response) : M World Response :=
  fun w => match middleware w with
           | (Ok req, w') => handler req w'
           | (Throw e, w') => (Ok (error_middleware e), w')
           end.

End Script.

(** ** server.js: the single-file upload route *)

Module ServerJs.
Section Route.

Variable cfg : Config.
Variable ext : External.

(** [(fileSize / 1024 / 1024).toFixed(2)] *)
Definition size_mb (fileSize : Z) : string := Js.toFixed2 fileSize (1024 * 1024).

(** The [FormData] for n8n, in the order of the [append] calls; an
    [append] that throws ends the building. *)
Definition build_form (req : Request) (file : File) : Result (list Part) :=
  let fileStream := fs_createReadStream (path file) in
  let formData := Ok [] in
  let formData := form_append_file formData "file" fileStream (originalname file)
                    "application/pdf" in
  let formData := form_append formData "process_type"
                    (Js.or_value (req_body req !! "process_type") "GG") in
  let formData := form_append formData "client_id"
                    (Js.or_value (req_body req !! "client_id") "INTELEC_SL") in
  let formData := form_append formData "uploaded_by" (Js.VString "backend-api") in
  form_append formData "file_size_mb" (Js.VString (size_mb (fsize file))).

(** The body of [try]; the only [let] variable the [catch] block reads is
    [filePath]. *)
Definition upload_try (req : Request) (startTime : Z) : M (option string * World) Response :=
  match req_file req with
  | None => ret (res_status_json 400 (Failure "No file found"))
  | Some file =>
      set_local (Some (path file)) ;;
      let filePath := path file in
      let fileSize := fsize file in
      let fileName := originalname file in
      let fileSizeMB := size_mb fileSize in
      let* formData := from_result (build_form req file) in
      let* response :=
        lift (axios_post ext (N8N_WEBHOOK_URL cfg) formData 120000 (fun _ => true)) in
      let* finished := lift Date_now in
      let processingTime := (finished - startTime)%Z in
      lift (fs_unlink filePath ignore_error) ;;
      if Js.in_range 200 300 (ax_status response) then
        let* again := lift Date_now in
        ret (res_json (Uploaded fileName fileSize fileSizeMB processingTime
                         (Js.or_else (jobId (ax_data response)) ("job_" +:+ pretty again))))
      else
        ret (res_status_json (ax_status response)
               (N8nStatus "N8N error" (ax_status response)))
  end.

Definition upload_catch (error : Error) : M (option string * World) Response :=
  let* filePath := get_local in
  match filePath with
  | Some p =>
      if negb (String.eqb p "") then
        let* there := lift (fs_existsSync p) in
        if there then lift (fs_unlink p ignore_error) else ret tt
      else ret tt
  | None => ret tt
  end ;;
  ret (res_status_json 500
         (FailureHint (message error) "Check n8n is available and URL is correct")).

Definition upload_handler (req : Request) : M World Response :=
  let* startTime := Date_now in
  with_local None (try_catch (upload_try req startTime) upload_catch).

(** [app.post('/api/upload-batch', upload.array('file'), handler)] *)
Definition upload_route (rq : Incoming) : M World Response :=
  route cfg (upload_array cfg ext "file" None rq) upload_handler.

End Route.
End ServerJs.

(** ** The batch script: the batch upload route *)

Module BatchJs.
Section Route.

Variable cfg : Config.
Variable ext : External.

(** [formData.append(`file_${i + 1}`, fs.createReadStream(file.path), ...)]
    for every file. *)
Definition file_parts (files : list File) : list Part :=
  imap (fun i file =>
          FilePart ("file_" +:+ pretty (i + 1)%nat) (fs_createReadStream (path file))
            (originalname file) "application/pdf") files.

(** The [FormData] for n8n: the files, then the metadata, in the order of
    the [append] calls; an [append] that throws ends the building. *)
Definition build_form (req : Request) (files : list File) (batchId : Js.Value) (stamp : Z) : Result (list Part) :=
  let formData := Ok (file_parts files) in
  let formData := form_append formData "batch_id" batchId in
  let formData := form_append formData "process_type"
                    (Js.or_value (req_body req !! "process_type") "GG") in
  let formData := form_append formData "client_id"
                    (Js.or_value (req_body req !! "client_id") "INTELEC_SL") in
  let formData := form_append formData "total_files" (Js.VString (pretty (length files))) in
  let formData := form_append formData "uploaded_by" (Js.VString "backend-api-batch") in
  form_append formData "upload_timestamp" (Js.VString (JsDate.toISOString stamp)).

(** The body of [try]; the [catch] block reads [filePaths]. *)
Definition upload_try (req : Request) (startTime : Z) : M (list string * World) Response :=
  match req_files req with
  | None => ret (res_status_json 400 (Failure "No files found"))
  | Some files =>
    if (length files =? 0)%nat
    then ret (res_status_json 400 (Failure "No files found"))
    else
      let* t0 := lift Date_now in
      let batchId := Js.or_value (req_body req !! "batch_id") ("batch_" +:+ pretty t0) in
      let totalFiles := length files in
      for_each (fun file =>
                  let* filePaths := get_local in
                  set_local (filePaths ++ [path file])%list) files ;;
      let* t1 := lift Date_now in
      let* formData := from_result (build_form req files batchId t1) in
      let* response :=
        lift (axios_post ext (N8N_WEBHOOK_URL cfg) formData 600000 (fun _ => true)) in
      let* finished := lift Date_now in
      let processingTime := (finished - startTime)%Z in
      let* filePaths := get_local in
      lift (for_each (fun filePath => fs_unlink filePath ignore_error) filePaths) ;;
      if Js.in_range 200 300 (ax_status response) then
        ret (res_json (BatchUploaded (Js.as_text batchId) totalFiles processingTime
                         (ax_data response)))
      else
        ret (res_status_json (ax_status response)
               (N8nDetails "Error en N8N" (ax_data response)))
  end.

Definition upload_catch (error : Error) : M (list string * World) Response :=
  let* filePaths := get_local in
  lift (for_each (fun filePath =>
                    let* there := fs_existsSync filePath in
                    if there then fs_unlink filePath ignore_error else ret tt)
          filePaths) ;;
  ret (res_status_json 500 (Failure (message error))).

Definition upload_handler (req : Request) : M World Response :=
  let* startTime := Date_now in
  with_local [] (try_catch (upload_try req startTime) upload_catch).

(** [app.post('/api/upload-batch', upload.array('files', 10), handler)] *)
Definition upload_route (rq : Incoming) : M World Response :=
  route cfg (upload_array cfg ext "files" (Some 10%nat) rq) upload_handler.

End Route.
End BatchJs.

(** ** Sample data *)

Module Samples.

Definition w0 : World :=
  {| disk := ∅; clock := 1700000000000; started := 1699999000000;
     draws := 0; sent := [] |}.

Definition env0 : Env :=
  {| env_PORT := None; env_N8N_WEBHOOK_URL := Some "http://n8n.local/webhook/licitaciones";
     env_MAX_FILE_SIZE_MB := None; env_TEMP_DIR := None |}.

Definition cfg0 : Config := load_config env0.

Definition answers (st : Z) : External :=
  {| random36 := fun n => "0.4fzyo82mvy" +:+ pretty n;
     downstream := fun _ =>
       {| elapsed := 1500; outcome := Responded st {| jobId := None; payload := "{}" |} |};
     limit_inclusive := false; max_redirects := 21 |}.

Definition refuses : External :=
  {| random36 := fun n => "0.4fzyo82mvy" +:+ pretty n;
     downstream := fun _ =>
       {| elapsed := 12; outcome := Unreachable "ECONNREFUSED" "connect ECONNREFUSED 127.0.0.1:5678" |};
     limit_inclusive := false; max_redirects := 21 |}.

Definition pdf (field name : string) (sz : Z) : Upload :=
  {| up_fieldname := field; up_originalname := name;
     up_mimetype := "application/pdf"; up_size := sz |}.

Definition text (field name : string) (sz : Z) : Upload :=
  {| up_fieldname := field; up_originalname := name;
     up_mimetype := "text/plain"; up_size := sz |}.

Definition request (ups : list Upload) : Incoming :=
  {| in_fields := ∅; in_files := ups |}.

Definition staged (p name : string) (sz : Z) : File :=
  {| fieldname := "files"; originalname := name; mimetype := "application/pdf";
     destination := "./uploads"; filename := name; path := p; fsize := sz |}.

Definition regular (mtime : Z) : Entry :=
  {| kind := RegularFile; size := 10; mtimeMs := mtime |}.

Definition folder (mtime : Z) : Entry :=
  {| kind := Directory; size := 0; mtimeMs := mtime |}.

(** A staging directory at 2023-11-14T23:13:20Z: a file staged an hour
    before, one staged a minute before, and a sub-directory. *)
Definition cluttered : World :=
  {| disk := <["./uploads/old.pdf" := regular 1700000000000]>
             (<["./uploads/new.pdf" := regular 1700003540000]>
             (<["./uploads/dir" := folder 1600000000000]> ∅));
     clock := 1700003600000; started := 1699999000000; draws := 2; sent := [] |}.

(** A state in which [p] is a staged file. *)
Definition holding (p : string) : World :=
  set_disk (<[p := regular 1700000000000]> ∅) w0.

End Samples.

(** ** Vocabulary of the statements *)

Definition is_regular (e : Entry) : bool :=
  match kind e with RegularFile => true | Directory => false end.

(** The entry is older than the age the cleanup timer allows. *)
Definition expired (now : Z) (e : Entry) : bool := (maxAge <? now - mtimeMs e)%Z.

(** The disk after [fs.unlink] on [p], when it is called only for an entry
    on which [cond] holds. *)
Definition drop_if (cond : Entry -> bool) (d : gmap string Entry) (p : string) : gmap string Entry :=
  match d !! p with
  | Some e => if cond e && is_regular e then delete p d else d
  | None => d
  end.

(** The answer axios hands to the caller: the status and body that come
    back within the time allowed, at the end of the redirects it follows, or
    nothing. *)
Definition delivered (fuel : nat) (tmo : Z) (rp : Reply) : option (Z * Data) :=
  match fst (settle_chain (fun _ => true) fuel tmo (elapsed rp) (outcome rp)) with
  | Ok r => Some (ax_status r, ax_data r)
  | Throw _ => None
  end.

(** The message of the error axios throws when nothing is delivered. *)
Definition failure_message (fuel : nat) (tmo : Z) (rp : Reply) : string :=
  match fst (settle_chain (fun _ => true) fuel tmo (elapsed rp) (outcome rp)) with
  | Ok _ => ""
  | Throw e => message e
  end.

(** The time the caller has waited when [axios.post] settles. *)
Definition waited (fuel : nat) (tmo : Z) (rp : Reply) : Z :=
  snd (settle_chain (fun _ => true) fuel tmo (elapsed rp) (outcome rp)).

(** A property of [req.body] that is absent or a string. *)
Definition plain (v : option Js.Value) : bool :=
  match v with
  | None => true
  | Some (Js.VString _) => true
  | Some _ => false
  end.

(** The named properties of [req.body] are each absent or a string. *)
Definition plain_fields (names : list string) (body : gmap string Js.Value) : bool :=
  forallb (fun n => plain (body !! n)) names.

(** The names the batch handler and the single-file handler read. *)
Definition batch_fields : list string := ["batch_id"; "process_type"; "client_id"].
Definition single_fields : list string := ["process_type"; "client_id"].

(** The string [v || d] is when [v] is absent or a string. *)
Definition or_text (v : option Js.Value) (d : string) : string :=
  Js.as_text (Js.or_value v d).

(** A part multer accepts under the field [name]: it has a file name, the
    expected field name, the PDF content type and a size within the limit. *)
Definition valid_pdf (cfg : Config) (ext : External) (name : string) (u : Upload) : bool :=
  negb (String.eqb (up_originalname u) "")
  && String.eqb (up_fieldname u) name
  && String.eqb (up_mimetype u) "application/pdf"
  && negb (over_limit cfg ext (up_size u)).

(** The file DiskStorage reports for a part stored in state [w]. *)
Definition stored_as (cfg : Config) (ext : External) (u : Upload) (w : World) : File :=
  let name := Naming.filename (clock w) (random36 ext (draws w)) (up_originalname u) in
  {| fieldname := up_fieldname u; originalname := up_originalname u;
     mimetype := up_mimetype u; destination := TEMP_DIR cfg; filename := name;
     path := path_join (TEMP_DIR cfg) name;
     fsize := Z.min (up_size u) (MAX_FILE_SIZE cfg) |}.

(** Every file of the list is on the disk, as a regular file. *)
Definition all_staged (fs : list File) (w : World) : Prop :=
  forall f, f ∈ fs -> exists e, disk w !! path f = Some e /\ kind e = RegularFile.



Definition is_4xx (st : Z) : bool := Js.in_range 400 500 st.

(** ** GET /stats *)

Module StatsRoute.

(** The object the route sends on success. *)
Record Stats := {
  filesWaiting : nat;
  tempDir : string;
  maxFileSize : string;
  n8nWebhook : string;
  environment : string;
  totalSizeMB : string
}.

Inductive StatsBody :=
| Report (stats : Stats)
| ReadError (error : string).

Record StatsResponse := { stats_status : Z; stats_body : StatsBody }.

(** [s.substring(0, n)] *)
Fixpoint substring_to (n : nat) (s : string) : string :=
  match n, s with
  | O, _ => EmptyString
  | S _, EmptyString => EmptyString
  | S n', String c s' => String c (substring_to n' s')
  end.

(** [fs.readdirSync(dir)]: throws when [dir] is missing or is no
    directory. *)
Definition fs_readdirSync (dir : string) : M World (list string) :=
  fun w => match disk w !! dir with
           | None => (Throw (FsError "ENOENT" dir), w)
           | Some e =>
               match kind e with
               | Directory => (Ok (entries dir (disk w)), w)
               | RegularFile => (Throw (FsError "ENOTDIR" dir), w)
               end
           end.

(** [fs.statSync(p)]: throws when [p] is missing. *)
Definition fs_statSync (p : string) : M World Entry :=
  fun w => match disk w !! p with
           | None => (Throw (FsError "ENOENT" p), w)
           | Some e => (Ok e, w)
           end.

(** [files.reduce((sum, file) => { try { ... } catch (e) { return sum } }, sum)] *)
Fixpoint reduce_sizes (dir : string) (files : list string) (sum : Z) : M World Z :=
  match files with
  | [] => ret sum
  | file :: rest =>
      let* sum' :=
        try_catch
          (let* stat := fs_statSync (path_join dir file) in
           ret (sum + size stat)%Z)
          (fun _ => ret sum) in
      reduce_sizes dir rest sum'
  end.

(** The route handler; [NODE_ENV] is [process.env.NODE_ENV]. *)
Definition stats (cfg : Config) (NODE_ENV : option string) : M World StatsResponse :=
  try_catch
    (let* files := fs_readdirSync (TEMP_DIR cfg) in
     let* webhook :=
       match N8N_WEBHOOK_URL cfg with
       | Some u => ret (substring_to 50 u +:+ "...")
       | None => throw (JsError "Cannot read properties of undefined (reading 'substring')")
       end in
     let* total :=
       if (0 <? length files)%nat then
         let* totalSize := reduce_sizes (TEMP_DIR cfg) files 0 in
         ret (Js.toFixed2 totalSize (1024 * 1024))
       else ret "0" in
     ret {| stats_status := 200;
            stats_body := Report {| filesWaiting := length files;
                                    tempDir := TEMP_DIR cfg;
                                    maxFileSize := limit_label cfg;
                                    n8nWebhook := webhook;
                                    environment := Js.or_else NODE_ENV "development";
                                    totalSizeMB := total |} |})
    (fun error => ret {| stats_status := 500; stats_body := ReadError (message error) |}).

End StatsRoute.

(** ** Further vocabulary *)

(** The sizes of the entries of [dir] itself, added up. *)
Definition sizes_under (dir : string) (d : gmap string Entry) : Z :=
  foldr (fun kv acc =>
           match strip_prefix (dir +:+ "/") (fst kv) with
           | Some name => if is_entry_name name then (size (snd kv) + acc)%Z else acc
           | None => acc
           end) 0%Z (map_to_list d).


Definition part_source (p : Part) : option string :=
  match p with FilePart _ src _ _ => Some src | FieldPart _ _ => None end.


(** What multer guarantees of a file it hands to the handler of a route
    registered under the field [name]. *)
Definition handed_over (cfg : Config) (name : string) (f : File) : Prop :=
  fieldname f = name
  /\ originalname f <> ""
  /\ mimetype f = "application/pdf"
  /\ destination f = TEMP_DIR cfg
  /\ path f = path_join (TEMP_DIR cfg) (filename f)
  /\ (exists ts r, filename f = Naming.filename ts r (originalname f))
  /\ (fsize f <= MAX_FILE_SIZE cfg)%Z.

Module Fixtures.

(** Eleven small PDFs under the field [files]. *)
Definition eleven : list Upload :=
  map (fun i => Samples.pdf "files" ("doc" +:+ pretty i +:+ ".pdf") 1000) (seq 1 11).

(** A running process: the staging directory exists and holds two files. *)
Definition running : World :=
  {| disk := <["./uploads" := Samples.folder 1699999000000]>
             (<["./uploads/a.pdf" := {| kind := RegularFile; size := 1572864;
                                        mtimeMs := 1700000000000 |}]>
             (<["./uploads/b.pdf" := {| kind := RegularFile; size := 524288;
                                        mtimeMs := 1700000001000 |}]> ∅));
     clock := 1700000002000; started := 1699999000000; draws := 2; sent := [] |}.

(** A staging directory with a sub-directory that holds a file. *)
Definition nested : World :=
  {| disk := <["./uploads" := Samples.folder 1699999000000]>
             (<["./uploads/dir" := Samples.folder 1600000000000]>
             (<["./uploads/dir/inner.pdf" := {| kind := RegularFile; size := 3145728;
                                                mtimeMs := 1600000000000 |}]> ∅));
     clock := 1700003600000; started := 1699999000000; draws := 0; sent := [] |}.

(** A downstream that answers 302 with a Location whose target answers 200. *)
Definition redirects : External :=
  {| random36 := fun n => "0.4fzyo82mvy" +:+ pretty n;
     downstream := fun _ =>
       {| elapsed := 40;
          outcome := Relocated 302 "http://n8n.local/webhook/moved" 60
                       (Responded 200 {| jobId := None; payload := "{}" |}) |};
     limit_inclusive := false; max_redirects := 21 |}.


End Fixtures.

(** * Properties *)

(** ** The staged file name *)

Section NamingFacts.
Import Naming.

Lemma in_class_not_underscore c : in_class c = true -> Ascii.eqb c underscore = false.
Proof.
  intros Hc. destruct (Ascii.eqb_spec c underscore) as [->|]; [|reflexivity].
  vm_compute in Hc. discriminate.
Qed.

Lemma collapse_cons_class c s :
  in_class c = true ->
  collapse_underscores (String c s) = String c (collapse_underscores s).
Proof.
  intros Hc. cbn [collapse_underscores].
  now rewrite (in_class_not_underscore c Hc).
Qed.

(** The two replacements of the source amount to the single pass. *)
Lemma two_passes_one_pass s :
  collapse_underscores (replace_outside s) = one_pass false s
  /\ collapse_underscores (String underscore (replace_outside s))
     = String underscore (one_pass true s).
Proof.
  induction s as [|c s [IHq IHp]]; [split; reflexivity|].
  cbn [replace_outside one_pass]. destruct (in_class c) eqn:Hc.
  - rewrite collapse_cons_class by exact Hc. rewrite IHq. split; [reflexivity|].
    change (collapse_underscores (String underscore (String c (replace_outside s))))
      with (if Ascii.eqb c underscore
            then collapse_underscores (String c (replace_outside s))
            else String underscore (collapse_underscores (String c (replace_outside s)))).
    rewrite (in_class_not_underscore c Hc).
    rewrite collapse_cons_class by exact Hc. now rewrite IHq.
  - split; [exact IHp|].
    change (collapse_underscores (String underscore (String underscore (replace_outside s))))
      with (collapse_underscores (String underscore (replace_outside s))).
    exact IHp.
Qed.

Lemma sanitize_one_pass s : sanitize s = one_pass false s.
Proof. apply two_passes_one_pass. Qed.

Lemma one_pass_chars b s : all_chars class_or_underscore (one_pass b s) = true.
Proof.
  revert b. induction s as [|c s IH]; intros b; [reflexivity|].
  cbn [one_pass]. destruct (in_class c) eqn:Hc.
  - cbn [all_chars]. unfold class_or_underscore at 1. rewrite Hc. apply IH.
  - destruct b; [apply IH|]. cbn [all_chars]. rewrite IH. reflexivity.
Qed.

(** After a run nothing starts with an underscore. *)
Lemma one_pass_true_head s :
  match one_pass true s with
  | String c _ => Ascii.eqb c underscore = false
  | EmptyString => True
  end.
Proof.
  induction s as [|c s IH]; [exact I|].
  cbn [one_pass]. destruct (in_class c) eqn:Hc; [|exact IH].
  now apply in_class_not_underscore.
Qed.

Lemma no_double_cons c s :
  no_double_underscore s = true ->
  match s with
  | String c' _ => Ascii.eqb c underscore && Ascii.eqb c' underscore = false
  | EmptyString => True
  end ->
  no_double_underscore (String c s) = true.
Proof.
  intros Hs Hh. destruct s as [|c' s]; [reflexivity|].
  cbn [no_double_underscore] in *. rewrite Hh. exact Hs.
Qed.

Lemma one_pass_no_double b s : no_double_underscore (one_pass b s) = true.
Proof.
  revert b. induction s as [|c s IH]; intros b; [reflexivity|].
  cbn [one_pass]. destruct (in_class c) eqn:Hc.
  - apply no_double_cons; [apply IH|].
    rewrite (in_class_not_underscore c Hc). now destruct (one_pass false s).
  - destruct b; [apply IH|]. apply no_double_cons; [apply IH|].
    pose proof (one_pass_true_head s) as Hh.
    destruct (one_pass true s); [exact I|]. rewrite Hh. apply andb_false_r.
Qed.

Lemma strip_one_pass b s : strip_outside (one_pass b s) = strip_outside s.
Proof.
  revert b. induction s as [|c s IH]; intros b; [reflexivity|].
  cbn [one_pass strip_outside]. destruct (in_class c) eqn:Hc.
  - cbn [strip_outside]. rewrite Hc. now rewrite IH.
  - destruct b; [apply IH|]. cbn [strip_outside].
    replace (in_class underscore) with false by reflexivity. apply IH.
Qed.

End NamingFacts.

(** C7, as amended.  The staged name multer's storage generates is the
    decimal timestamp, a hyphen, the random token (the base-36 rendering of
    the random number from its eighth character on), a hyphen and the
    sanitized original name; the sanitized name is the original one with
    every maximal run of characters outside [a-zA-Z0-9.-] replaced by one
    underscore: it holds only characters of the class and underscores, never
    two underscores in a row, and the characters of the class in their
    original order. *)
Theorem staged_name_replaces_runs (ext : External) (u : Upload) (w : World) :
  run (storage_filename ext u) w
  = (Ok (pretty (clock w) +:+ "-" +:+ Js.substring_from 7 (random36 ext (draws w))
           +:+ "-" +:+ Naming.one_pass false (up_originalname u)),
     drawn w)
  /\ Naming.all_chars Naming.class_or_underscore (Naming.sanitize (up_originalname u)) = true
  /\ Naming.no_double_underscore (Naming.sanitize (up_originalname u)) = true
  /\ Naming.strip_outside (Naming.sanitize (up_originalname u))
     = Naming.strip_outside (up_originalname u).
Proof.
  repeat split.
  - unfold run, storage_filename, bind, Date_now, Math_random36, ret, Naming.filename.
    now rewrite sanitize_one_pass.
  - rewrite sanitize_one_pass. apply one_pass_chars.
  - rewrite sanitize_one_pass. apply one_pass_no_double.
  - rewrite sanitize_one_pass. apply strip_one_pass.
Qed.

(** C7 as the specification words it fails: for the upload named
    [a b.pdf] the storage generates a name ending in [a_b.pdf], with an
    underscore where the space was, whereas stripping the characters outside
    the class and collapsing repeats gives [ab.pdf]. *)
Lemma staged_name_does_not_strip :
  run (storage_filename (Samples.answers 200) (Samples.pdf "file" "a b.pdf" 2097152)) Samples.w0
  = (Ok "1700000000000-82mvy0-a_b.pdf", drawn Samples.w0)
  /\ Naming.described_filename 1700000000000 "0.4fzyo82mvy0" "a b.pdf"
     = "1700000000000-82mvy0-ab.pdf"
  /\ Naming.filename 1700000000000 "0.4fzyo82mvy0" "a b.pdf"
     <> Naming.described_filename 1700000000000 "0.4fzyo82mvy0" "a b.pdf".
Proof.
  split; [reflexivity|]. split; [reflexivity|]. vm_compute. discriminate.
Qed.

(** ** Deleting staged files *)

Section Deletion.

Lemma set_disk_same w : set_disk (disk w) w = w.
Proof. now destruct w. Qed.

Lemma lookup_drop_if cond (d : gmap string Entry) q p :
  drop_if cond d q !! p
  = match d !! p with
    | Some e => if cond e && is_regular e && bool_decide (p = q) then None else Some e
    | None => None
    end.
Proof.
  unfold drop_if. destruct (decide (p = q)) as [->|Hne].
  - rewrite bool_decide_eq_true_2 by reflexivity.
    destruct (d !! q) as [e|] eqn:Hq; [|now rewrite Hq].
    destruct (cond e && is_regular e); cbn.
    + apply lookup_delete_eq.
    + exact Hq.
  - rewrite bool_decide_eq_false_2 by exact Hne.
    assert (Hsame : drop_if cond d q !! p = d !! p).
    { unfold drop_if. destruct (d !! q) as [e|]; [|reflexivity].
      destruct (cond e && is_regular e); [|reflexivity].
      now apply lookup_delete_ne. }
    unfold drop_if in Hsame. rewrite Hsame.
    destruct (d !! p) as [e|]; [|reflexivity]. now rewrite andb_false_r.
Qed.

Lemma lookup_drop_all cond paths (d : gmap string Entry) p :
  foldl (drop_if cond) d paths !! p
  = match d !! p with
    | Some e => if cond e && is_regular e && bool_decide (p ∈ paths) then None else Some e
    | None => None
    end.
Proof.
  revert d. induction paths as [|q paths IH]; intros d.
  - cbn [foldl]. destruct (d !! p) as [e|]; [|reflexivity].
    rewrite bool_decide_eq_false_2 by apply not_elem_of_nil.
    now rewrite andb_false_r.
  - cbn [foldl]. rewrite IH, lookup_drop_if.
    destruct (d !! p) as [e|]; [|reflexivity].
    destruct (cond e && is_regular e) eqn:Hc; cbn [andb].
    + destruct (decide (p = q)) as [->|Hne].
      * rewrite bool_decide_eq_true_2 by reflexivity.
        now rewrite (bool_decide_eq_true_2 (q ∈ q :: paths)) by apply list_elem_of_here.
      * rewrite (bool_decide_eq_false_2 (p = q)) by exact Hne.
        rewrite Hc. cbn [andb].
        destruct (decide (p ∈ paths)) as [Hin|Hout].
        -- rewrite !bool_decide_eq_true_2; [reflexivity| |exact Hin].
           now apply list_elem_of_further.
        -- rewrite !bool_decide_eq_false_2; [reflexivity| |exact Hout].
           intros Hin. apply elem_of_cons in Hin as [?|?]; contradiction.
    + rewrite Hc. reflexivity.
Qed.

(** A loop whose body leaves behind [drop_if cond] of the disk. *)
Lemma run_for_each_drop cond (step : string -> M World unit) :
  (forall p w, run (step p) w = (Ok tt, set_disk (drop_if cond (disk w) p) w)) ->
  forall paths w,
    run (for_each step paths) w = (Ok tt, set_disk (foldl (drop_if cond) (disk w) paths) w).
Proof.
  intros Hstep paths. induction paths as [|q paths IH]; intros w.
  - cbn. now rewrite set_disk_same.
  - unfold run in *. cbn [for_each foldl]. unfold bind at 1. rewrite Hstep.
    rewrite IH. now destruct w.
Qed.

Lemma run_unlink p w :
  run (fs_unlink p ignore_error) w
  = (Ok tt, set_disk (drop_if (fun _ => true) (disk w) p) w).
Proof.
  unfold run, fs_unlink, drop_if, is_regular, ignore_error, ret.
  destruct (disk w !! p) as [e|]; [|now rewrite set_disk_same].
  destruct (kind e); cbn; [reflexivity|now rewrite set_disk_same].
Qed.

Lemma run_unlink_if_exists p w :
  run (let* there := fs_existsSync p in
       if there then fs_unlink p ignore_error else ret tt) w
  = (Ok tt, set_disk (drop_if (fun _ => true) (disk w) p) w).
Proof.
  unfold run, bind, fs_existsSync.
  destruct (disk w !! p) as [e|] eqn:Hp.
  - rewrite bool_decide_eq_true_2 by eauto. apply run_unlink.
  - rewrite bool_decide_eq_false_2 by apply is_Some_None.
    unfold ret, drop_if. rewrite Hp. now rewrite set_disk_same.
Qed.

Lemma run_sweep_entry now fp w :
  run (fs_stat fp (sweep_stat now fp)) w
  = (Ok tt, set_disk (drop_if (expired now) (disk w) fp) w).
Proof.
  unfold run, fs_stat, sweep_stat, drop_if, expired.
  destruct (disk w !! fp) as [e|] eqn:Hp; [|unfold ret; now rewrite set_disk_same].
  destruct (maxAge <? now - mtimeMs e)%Z; cbn [andb].
  - pose proof (run_unlink fp w) as Hu. unfold run, drop_if in Hu.
    rewrite Hp in Hu. cbn [andb] in Hu. exact Hu.
  - unfold ret. now rewrite set_disk_same.
Qed.

End Deletion.

(** C9.  [fs.unlink] with the callback that discards its error, called on a
    path that is not on the disk (deleted before, or never there), throws
    nothing and leaves the whole state as it was, so no other staged file is
    touched. *)
Theorem unlink_absent_is_noop (w : World) (p : string) :
  disk w !! p = None ->
  run (fs_unlink p ignore_error) w = (Ok tt, w).
Proof.
  intros Hp. unfold run, fs_unlink. now rewrite Hp.
Qed.

Lemma unlink_absent_is_noop_witness :
  disk Samples.w0 !! "./uploads/1700000000000-82mvy0-a.pdf" = None
  /\ run (fs_unlink "./uploads/1700000000000-82mvy0-a.pdf" ignore_error) Samples.w0
     = (Ok tt, Samples.w0).
Proof.
  split; [reflexivity|]. apply unlink_absent_is_noop. reflexivity.
Defined.

(** Deleting the same staged file twice: the second call changes nothing,
    and no call touches another path. *)
Lemma unlink_twice (w : World) (p : string) :
  let w1 := snd (run (fs_unlink p ignore_error) w) in
  run (fs_unlink p ignore_error) w1 = (Ok tt, w1)
  /\ forall q, q <> p -> disk w1 !! q = disk w !! q.
Proof.
  intros w1. assert (Hw1 : w1 = set_disk (drop_if (fun _ => true) (disk w) p) w).
  { unfold w1. now rewrite run_unlink. }
  clearbody w1. subst w1. split.
  - rewrite run_unlink. f_equal.
    assert (Hsame : forall d : gmap string Entry,
               drop_if (fun _ => true) (drop_if (fun _ => true) d p) p
               = drop_if (fun _ => true) d p).
    { intros d. apply map_eq. intros q. rewrite !lookup_drop_if.
      destruct (d !! q) as [e|]; [|reflexivity].
      destruct (true && is_regular e && bool_decide (q = p)) eqn:Hb; [reflexivity|].
      now rewrite Hb. }
    destruct w as [d c s n l]. unfold set_disk. cbn [disk clock started draws sent].
    now rewrite Hsame.
  - intros q Hq. cbn [disk set_disk]. rewrite lookup_drop_if.
    destruct (disk w !! q) as [e|]; [|reflexivity].
    rewrite (bool_decide_eq_false_2 (q = p)) by exact Hq. now rewrite andb_false_r.
Qed.

(** ** Start-up and the health route *)

(** C10.  Whenever start-up reaches the running state instead of exiting,
    the health route answers 200 with [n8nConnected] true, in every state of
    the process. *)
Theorem health_reports_connected (env : Env) (w w' : World) (cfg : Config) (s : World) :
  startup env w = (Running cfg, w') ->
  run (health cfg) s
  = (Ok (res_json (HealthBody "ok" (JsDate.toISOString (clock s))
                     (clock s - started s) true)), s).
Proof.
  unfold startup. intros Hboot.
  destruct (Js.truthy (N8N_WEBHOOK_URL (load_config env))) eqn:Hurl; cbn [negb] in Hboot.
  - assert (cfg = load_config env) as ->.
    { destruct (bool_decide _) in Hboot; congruence. }
    unfold run, health. now rewrite Hurl.
  - discriminate.
Qed.

Lemma health_reports_connected_witness :
  startup Samples.env0 Samples.w0
  = (Running Samples.cfg0,
     set_disk (<["./uploads" := Samples.folder 1700000000000]> ∅) Samples.w0)
  /\ run (health Samples.cfg0) Samples.w0
     = (Ok (res_json (HealthBody "ok" "2023-11-14T22:13:20.000Z" 1000000 true)), Samples.w0).
Proof.
  split; [reflexivity|].
  exact (health_reports_connected Samples.env0 Samples.w0 _ Samples.cfg0 Samples.w0 eq_refl).
Defined.

(** Without the webhook URL start-up exits with code 1 and the state is
    untouched. *)
Lemma startup_exits_without_url (env : Env) (w : World) :
  Js.truthy (env_N8N_WEBHOOK_URL env) = false ->
  startup env w = (Exited 1, w).
Proof. intros H. unfold startup. cbn [load_config N8N_WEBHOOK_URL]. now rewrite H. Qed.

(** ** The cleanup timer *)

Section Sweep.

Variable cfg : Config.

Lemma strip_prefix_app p s : strip_prefix p (p +:+ s) = Some s.
Proof.
  induction p as [|c p IH]; [reflexivity|].
  change (strip_prefix (String c p) (String c (p +:+ s)) = Some s).
  cbn [strip_prefix]. now rewrite Ascii.eqb_refl.
Qed.

Lemma path_join_assoc dir name : path_join dir name = (dir +:+ "/") +:+ name.
Proof.
  unfold path_join. induction dir as [|c dir IH]; [reflexivity|].
  change (String c (dir +:+ "/" +:+ name) = String c ((dir +:+ "/") +:+ name)).
  now rewrite IH.
Qed.

(** [fs.readdir] lists every entry of the directory itself. *)
Lemma entries_listed dir (d : gmap string Entry) name e :
  is_entry_name name = true ->
  d !! path_join dir name = Some e -> name ∈ entries dir d.
Proof.
  intros Hname Hd. unfold entries. apply list_elem_of_filter. split; [exact Hname|].
  apply list_elem_of_omap.
  exists (path_join dir name, e). split.
  - now apply elem_of_map_to_list.
  - cbn [fst]. rewrite path_join_assoc. apply strip_prefix_app.
Qed.

Lemma run_for_each_map {A B : Type} (h : A -> B) (g : B -> M World unit) xs w :
  run (for_each (fun x => g (h x)) xs) w = run (for_each g (map h xs)) w.
Proof.
  revert w. induction xs as [|x xs IH]; intros w; [reflexivity|].
  unfold run in *. cbn [for_each map]. unfold bind.
  destruct (g (h x) w) as [[[]|err] w1]; [apply IH|reflexivity].
Qed.

Lemma run_sweep_listing now files w :
  run (sweep_listing cfg now None files) w
  = (Ok tt,
     set_disk (foldl (drop_if (expired now)) (disk w)
                 (map (path_join (TEMP_DIR cfg)) files)) w).
Proof.
  unfold sweep_listing.
  rewrite (run_for_each_map (path_join (TEMP_DIR cfg))
             (fun fp => fs_stat fp (sweep_stat now fp))).
  apply run_for_each_drop. intros p w1. apply run_sweep_entry.
Qed.

Lemma run_sweep w :
  run (sweep cfg) w
  = run (sweep_listing cfg (clock w) None (entries (TEMP_DIR cfg) (disk w))) w.
Proof. reflexivity. Qed.

(** A listing error ends the cycle at once. *)
Lemma sweep_listing_error now err files w :
  run (sweep_listing cfg now (Some err) files) w = (Ok tt, w).
Proof. reflexivity. Qed.

(** What one cycle does to one entry, whatever else is listed. *)
Lemma sweep_listing_entry now files w name e :
  name ∈ files ->
  disk w !! path_join (TEMP_DIR cfg) name = Some e ->
  exists w',
    run (sweep_listing cfg now None files) w = (Ok tt, w')
    /\ ((maxAge < now - mtimeMs e)%Z -> kind e = RegularFile ->
        disk w' !! path_join (TEMP_DIR cfg) name = None)
    /\ ((now - mtimeMs e <= maxAge)%Z ->
        disk w' !! path_join (TEMP_DIR cfg) name = Some e).
Proof.
  intros Hin He. eexists. split; [apply run_sweep_listing|].
  cbn [disk set_disk]. rewrite lookup_drop_all, He. unfold expired, is_regular. split.
  - intros Hold Hreg. rewrite Hreg.
    rewrite (proj2 (Z.ltb_lt _ _)) by exact Hold.
    rewrite bool_decide_eq_true_2; [reflexivity|].
    apply list_elem_of_fmap. now exists name.
  - intros Hyoung. now rewrite (proj2 (Z.ltb_ge _ _)) by exact Hyoung.
Qed.

End Sweep.

(** C8.  One firing of the cleanup timer, at time [clock w], returns
    normally; an entry of the staging directory itself (its name is not
    empty and holds no separator, so it is no path into a sub-directory)
    that is a regular file and whose modification time lies more than 30
    minutes back is gone afterwards, and an entry at most 30 minutes old is
    still there, unchanged.  The same holds of the listing callback for any
    list of names it is handed, so neither a listed name whose [stat] fails
    (it is no longer on the disk) nor an entry whose [unlink] fails (a
    directory) keeps the other entries from being examined. *)
Theorem sweep_cycle (cfg : Config) (w : World) (name : string) (e : Entry) :
  is_entry_name name = true ->
  disk w !! path_join (TEMP_DIR cfg) name = Some e ->
  (exists w',
     run (sweep cfg) w = (Ok tt, w')
     /\ ((30 * 60 * 1000 < clock w - mtimeMs e)%Z -> kind e = RegularFile ->
         disk w' !! path_join (TEMP_DIR cfg) name = None)
     /\ ((clock w - mtimeMs e <= 30 * 60 * 1000)%Z ->
         disk w' !! path_join (TEMP_DIR cfg) name = Some e))
  /\ (forall now files, name ∈ files ->
      exists w',
        run (sweep_listing cfg now None files) w = (Ok tt, w')
        /\ ((30 * 60 * 1000 < now - mtimeMs e)%Z -> kind e = RegularFile ->
            disk w' !! path_join (TEMP_DIR cfg) name = None)
        /\ ((now - mtimeMs e <= 30 * 60 * 1000)%Z ->
            disk w' !! path_join (TEMP_DIR cfg) name = Some e)).
Proof.
  intros Hname He. split.
  - rewrite run_sweep. apply sweep_listing_entry; [|exact He].
    now apply entries_listed with e.
  - intros now files Hin. now apply sweep_listing_entry.
Qed.

Lemma sweep_cycle_witness :
  is_entry_name "old.pdf" = true
  /\ disk Samples.cluttered !! path_join (TEMP_DIR Samples.cfg0) "old.pdf"
     = Some (Samples.regular 1700000000000)
  /\ disk (snd (run (sweep Samples.cfg0) Samples.cluttered)) !! "./uploads/old.pdf" = None
  /\ disk (snd (run (sweep_listing Samples.cfg0 1700003600000 None
                       ["ghost.pdf"; "dir"; "old.pdf"; "new.pdf"]) Samples.cluttered))
       !! "./uploads/old.pdf" = None.
Proof.
  split; [reflexivity|]. split; [reflexivity|].
  destruct (sweep_cycle Samples.cfg0 Samples.cluttered "old.pdf"
              (Samples.regular 1700000000000) eq_refl eq_refl)
    as [[w1 [Hrun [Hold _]]] Hany].
  split.
  - rewrite Hrun. apply Hold; [reflexivity|reflexivity].
  - destruct (Hany 1700003600000%Z ["ghost.pdf"; "dir"; "old.pdf"; "new.pdf"])
      as [w2 [Hrun2 [Hold2 _]]].
    + apply list_elem_of_In. cbn. tauto.
    + rewrite Hrun2. apply Hold2; reflexivity.
Defined.

(** The sample directory after one cycle: the old file is gone, the young
    file and the sub-directory stay. *)
Example sweep_cluttered :
  disk (snd (run (sweep Samples.cfg0) Samples.cluttered))
  = <["./uploads/new.pdf" := Samples.regular 1700003540000]>
      (<["./uploads/dir" := Samples.folder 1600000000000]> ∅).
Proof. vm_compute. reflexivity. Qed.

(** A file inside a sub-directory of the staging directory is not listed:
    however old it is, a cycle leaves it where it is. *)
Example sweep_keeps_nested :
  entries "./uploads" (disk Fixtures.nested) = ["dir"]
  /\ disk (snd (run (sweep Samples.cfg0) Fixtures.nested)) = disk Fixtures.nested.
Proof. split; vm_compute; reflexivity. Qed.

(** ** The relay step *)

Section Relay.

Variable cfg : Config.
Variable ext : External.

(** A direct answer that arrives in time is what axios hands over. *)
Lemma delivered_direct fuel tmo rp st d :
  outcome rp = Responded st d -> (elapsed rp <= tmo)%Z ->
  delivered fuel tmo rp = Some (st, d) /\ waited fuel tmo rp = elapsed rp.
Proof.
  intros Hout Hfast. unfold delivered, waited. rewrite Hout. cbn [settle_chain].
  rewrite (proj2 (Z.ltb_ge _ _)) by exact Hfast. split; reflexivity.
Qed.



Lemma run_axios_post_unreadable target fd tmo vs e w :
  first_unreadable (disk w) fd = Some e ->
  run (axios_post ext target fd tmo vs) w = (Throw e, w).
Proof. unfold run, axios_post. now intros ->. Qed.

Lemma run_axios_post_delivered target fd tmo st d w :
  first_unreadable (disk w) fd = None ->
  delivered (max_redirects ext) tmo
    (downstream ext {| url := target; form := fd; timeout := tmo |}) = Some (st, d) ->
  run (axios_post ext target fd tmo (fun _ => true)) w
  = (Ok {| ax_status := st; ax_data := d |},
     tick (waited (max_redirects ext) tmo
             (downstream ext {| url := target; form := fd; timeout := tmo |}))
       (logged {| url := target; form := fd; timeout := tmo |} w)).
Proof.
  unfold run, axios_post, delivered, waited. intros ->.
  destruct (settle_chain _ _ _ _ _) as [[r|e] t]; cbn [fst snd]; [|discriminate].
  intros [= <- <-]. now destruct r.
Qed.

Lemma run_axios_post_failed target fd tmo w :
  first_unreadable (disk w) fd = None ->
  delivered (max_redirects ext) tmo
    (downstream ext {| url := target; form := fd; timeout := tmo |}) = None ->
  exists err,
    message err = failure_message (max_redirects ext) tmo
                    (downstream ext {| url := target; form := fd; timeout := tmo |})
    /\ run (axios_post ext target fd tmo (fun _ => true)) w
       = (Throw err,
          tick (waited (max_redirects ext) tmo
                  (downstream ext {| url := target; form := fd; timeout := tmo |}))
            (logged {| url := target; form := fd; timeout := tmo |} w)).
Proof.
  unfold run, axios_post, delivered, waited, failure_message. intros ->.
  destruct (settle_chain _ _ _ _ _) as [[r|e] t]; cbn [fst snd]; [discriminate|].
  intros _. exists e. split; reflexivity.
Qed.

Lemma run_push_paths (files : list File) (l : list string) (w : World) :
  run (for_each (fun file : File =>
                   let* filePaths := get_local in
                   set_local (filePaths ++ [path file])%list) files) (l, w)
  = (Ok tt, ((l ++ map path files)%list, w)).
Proof.
  revert l. induction files as [|f files IH]; intros l.
  - cbn. now rewrite app_nil_r.
  - unfold run in *. cbn [for_each map]. unfold bind at 1.
    unfold bind at 1. unfold get_local, set_local. cbn [fst snd].
    rewrite IH. now rewrite <- app_assoc.
Qed.

(** The [catch] block of the batch handler. *)
Lemma run_batch_catch e paths w :
  run (BatchJs.upload_catch e) (paths, w)
  = (Ok (res_status_json 500 (Failure (message e))),
     (paths, set_disk (foldl (drop_if (fun _ => true)) (disk w) paths) w)).
Proof.
  unfold run, BatchJs.upload_catch.
  unfold bind at 1. unfold get_local at 1. cbn [fst snd].
  unfold bind at 1. unfold lift at 1. cbn [fst snd].
  pose proof (run_for_each_drop (fun _ => true)
                (fun filePath =>
                   let* there := fs_existsSync filePath in
                   if there then fs_unlink filePath ignore_error else ret tt)
                run_unlink_if_exists paths w) as Hclean.
  unfold run in Hclean. rewrite Hclean. reflexivity.
Qed.

(** The batch handler on a request with files: an [append] that throws and
    a staged file that cannot be read both end in the [catch] block before
    anything is posted; otherwise the form is posted once. *)
Lemma run_batch_handler req files w :
  req_files req = Some files -> files <> [] ->
  let batchId := Js.or_value (req_body req !! "batch_id") ("batch_" +:+ pretty (clock w)) in
  let cleaned := fun w1 =>
    set_disk (foldl (drop_if (fun _ => true)) (disk w1) (map path files)) w1 in
  run (BatchJs.upload_handler cfg ext req) w
  = match BatchJs.build_form req files batchId (clock w) with
    | Throw e => (Ok (res_status_json 500 (Failure (message e))), cleaned w)
    | Ok fd =>
        match first_unreadable (disk w) fd with
        | Some e => (Ok (res_status_json 500 (Failure (message e))), cleaned w)
        | None =>
            let rq := {| url := N8N_WEBHOOK_URL cfg; form := fd; timeout := 600000 |} in
            let rp := downstream ext rq in
            let w1 := tick (waited (max_redirects ext) 600000 rp) (logged rq w) in
            (Ok (match delivered (max_redirects ext) 600000 rp with
                 | Some (st, d) =>
                     if Js.in_range 200 300 st
                     then res_json (BatchUploaded (Js.as_text batchId) (length files)
                                      (clock w1 - clock w) d)
                     else res_status_json st (N8nDetails "Error en N8N" d)
                 | None =>
                     res_status_json 500
                       (Failure (failure_message (max_redirects ext) 600000 rp))
                 end), cleaned w1)
        end
    end.
Proof.
  intros Hfiles Hne. cbn zeta.
  unfold run, BatchJs.upload_handler, with_local, try_catch, BatchJs.upload_try.
  rewrite Hfiles. destruct files as [|f0 fs]; [contradiction|].
  set (files := f0 :: fs) in *.
  replace (length files =? 0)%nat with false by reflexivity.
  unfold bind at 1. unfold Date_now at 1.
  unfold bind at 1. unfold lift at 1. unfold Date_now at 1. cbn [fst snd].
  unfold bind at 1.
  pose proof (run_push_paths files [] w) as Hpush. unfold run in Hpush.
  rewrite Hpush. cbn [app].
  unfold bind at 1. unfold lift at 1. unfold Date_now at 1. cbn [fst snd].
  unfold bind at 1. unfold from_result at 1.
  set (batchId := Js.or_value _ _).
  pose proof (fun e => run_batch_catch e (map path files) w) as Hcatch.
  unfold run in Hcatch.
  destruct (BatchJs.build_form req files batchId (clock w)) as [fd|e0].
  2: { rewrite Hcatch. reflexivity. }
  unfold bind at 1. unfold lift at 1. cbn [fst snd].
  destruct (first_unreadable (disk w) fd) as [e1|] eqn:Hread.
  { pose proof (run_axios_post_unreadable (N8N_WEBHOOK_URL cfg) fd 600000
                  (fun _ => true) e1 w Hread) as Hax.
    unfold run in Hax. rewrite Hax. rewrite Hcatch. reflexivity. }
  set (rq := {| url := N8N_WEBHOOK_URL cfg; form := fd; timeout := 600000 |}).
  destruct (delivered (max_redirects ext) 600000 (downstream ext rq)) as [[st d]|] eqn:Hd.
  - pose proof (run_axios_post_delivered (N8N_WEBHOOK_URL cfg) fd 600000 st d w Hread Hd)
      as Hax.
    unfold run in Hax. fold rq in Hax. rewrite Hax.
    set (w1 := tick _ _).
    unfold bind at 1. unfold lift at 1. unfold Date_now at 1. cbn [fst snd].
    unfold bind at 1. unfold get_local at 1. cbn [fst snd].
    unfold bind at 1. unfold lift at 1. cbn [fst snd].
    pose proof (run_for_each_drop (fun _ => true)
                  (fun filePath => fs_unlink filePath ignore_error) run_unlink
                  (map path files) w1) as Hclean.
    unfold run in Hclean. rewrite Hclean. cbn [ax_status ax_data].
    destruct (Js.in_range 200 300 st); reflexivity.
  - destruct (run_axios_post_failed (N8N_WEBHOOK_URL cfg) fd 600000 w Hread Hd)
      as [err [Hmsg Hax]].
    unfold run in Hax. fold rq in Hax, Hmsg. rewrite Hax.
    set (w1 := tick _ _).
    pose proof (run_batch_catch err (map path files) w1) as Hcatch1.
    unfold run in Hcatch1. rewrite Hcatch1. cbn [fst snd].
    now rewrite Hmsg.
Qed.

Lemma run_batch_handler_empty req w :
  req_files req = Some [] ->
  run (BatchJs.upload_handler cfg ext req) w
  = (Ok (res_status_json 400 (Failure "No files found")), w).
Proof.
  intros Hfiles.
  unfold run, BatchJs.upload_handler, with_local, try_catch, BatchJs.upload_try.
  now rewrite Hfiles.
Qed.

Lemma run_single_handler_no_file req w :
  req_file req = None ->
  run (ServerJs.upload_handler cfg ext req) w
  = (Ok (res_status_json 400 (Failure "No file found")), w).
Proof.
  intros Hfile.
  unfold run, ServerJs.upload_handler, with_local, try_catch, ServerJs.upload_try.
  now rewrite Hfile.
Qed.

(** The [catch] block of the single-file handler, once [filePath] is set. *)
Lemma run_single_catch e p w :
  p <> "" ->
  run (ServerJs.upload_catch e) (Some p, w)
  = (Ok (res_status_json 500
           (FailureHint (message e) "Check n8n is available and URL is correct")),
     (Some p, set_disk (drop_if (fun _ => true) (disk w) p) w)).
Proof.
  intros Hp. unfold run, ServerJs.upload_catch.
  unfold bind at 1. unfold get_local at 1. cbn [fst snd].
  replace (String.eqb p "") with false by (symmetry; now apply String.eqb_neq).
  cbn [negb].
  unfold bind at 1.
  unfold bind at 1. unfold lift at 1. unfold fs_existsSync at 1. cbn [fst snd].
  pose proof (run_unlink p w) as Hclean. unfold run in Hclean.
  unfold drop_if in *.
  destruct (disk w !! p) as [en|] eqn:Hen.
  - rewrite bool_decide_eq_true_2 by eauto.
    unfold lift at 1. cbn [fst snd]. rewrite Hclean. reflexivity.
  - rewrite bool_decide_eq_false_2 by apply is_Some_None.
    unfold ret. cbn [fst snd]. now rewrite set_disk_same.
Qed.

(** The single-file handler once [req.file] is set. *)
Lemma run_single_handler req file w :
  req_file req = Some file -> path file <> "" ->
  let cleaned := fun w1 => set_disk (drop_if (fun _ => true) (disk w1) (path file)) w1 in
  let hint := "Check n8n is available and URL is correct" in
  run (ServerJs.upload_handler cfg ext req) w
  = match ServerJs.build_form req file with
    | Throw e => (Ok (res_status_json 500 (FailureHint (message e) hint)), cleaned w)
    | Ok fd =>
        match first_unreadable (disk w) fd with
        | Some e => (Ok (res_status_json 500 (FailureHint (message e) hint)), cleaned w)
        | None =>
            let rq := {| url := N8N_WEBHOOK_URL cfg; form := fd; timeout := 120000 |} in
            let rp := downstream ext rq in
            let w1 := tick (waited (max_redirects ext) 120000 rp) (logged rq w) in
            (Ok (match delivered (max_redirects ext) 120000 rp with
                 | Some (st, d) =>
                     if Js.in_range 200 300 st
                     then res_json (Uploaded (originalname file) (fsize file)
                                      (ServerJs.size_mb (fsize file)) (clock w1 - clock w)
                                      (Js.or_else (jobId d) ("job_" +:+ pretty (clock w1))))
                     else res_status_json st (N8nStatus "N8N error" st)
                 | None =>
                     res_status_json 500
                       (FailureHint (failure_message (max_redirects ext) 120000 rp) hint)
                 end), cleaned w1)
        end
    end.
Proof.
  intros Hfile Hpath. cbn zeta.
  unfold run, ServerJs.upload_handler, with_local, try_catch, ServerJs.upload_try.
  rewrite Hfile.
  unfold bind at 1. unfold Date_now at 1.
  unfold bind at 1. unfold set_local at 1. cbn [fst snd].
  unfold bind at 1. unfold from_result at 1.
  pose proof (fun e => run_single_catch e (path file) w Hpath) as Hcatch.
  unfold run in Hcatch.
  destruct (ServerJs.build_form req file) as [fd|e0].
  2: { rewrite Hcatch. reflexivity. }
  unfold bind at 1. unfold lift at 1. cbn [fst snd].
  destruct (first_unreadable (disk w) fd) as [e1|] eqn:Hread.
  { pose proof (run_axios_post_unreadable (N8N_WEBHOOK_URL cfg) fd 120000
                  (fun _ => true) e1 w Hread) as Hax.
    unfold run in Hax. rewrite Hax. rewrite Hcatch. reflexivity. }
  set (rq := {| url := N8N_WEBHOOK_URL cfg; form := fd; timeout := 120000 |}).
  destruct (delivered (max_redirects ext) 120000 (downstream ext rq)) as [[st d]|] eqn:Hd.
  - pose proof (run_axios_post_delivered (N8N_WEBHOOK_URL cfg) fd 120000 st d w Hread Hd)
      as Hax.
    unfold run in Hax. fold rq in Hax. rewrite Hax.
    set (w1 := tick _ _).
    unfold bind at 1. unfold lift at 1. unfold Date_now at 1. cbn [fst snd].
    unfold bind at 1. unfold lift at 1. cbn [fst snd].
    pose proof (run_unlink (path file) w1) as Hclean.
    unfold run in Hclean. rewrite Hclean. cbn [ax_status ax_data].
    destruct (Js.in_range 200 300 st); reflexivity.
  - destruct (run_axios_post_failed (N8N_WEBHOOK_URL cfg) fd 120000 w Hread Hd)
      as [err [Hmsg Hax]].
    unfold run in Hax. fold rq in Hax, Hmsg. rewrite Hax.
    set (w1 := tick _ _).
    pose proof (run_single_catch err (path file) w1 Hpath) as Hcatch1.
    unfold run in Hcatch1. rewrite Hcatch1. cbn [fst snd].
    now rewrite Hmsg.
Qed.

(** Whatever happens, the batch handler answers, and what it does to the
    disk is to unlink the staged paths; it posts once or not at all. *)
Lemma batch_handler_cleans req files w :
  req_files req = Some files -> files <> [] ->
  exists resp w',
    run (BatchJs.upload_handler cfg ext req) w = (Ok resp, w')
    /\ disk w' = foldl (drop_if (fun _ => true)) (disk w) (map path files)
    /\ (sent w' = sent w \/ exists rq, sent w' = sent w ++ [rq]).
Proof.
  intros Hfiles Hne. rewrite (run_batch_handler req files w Hfiles Hne). cbn zeta.
  destruct (BatchJs.build_form _ _ _ _) as [fd|e0].
  2: { eexists. eexists. split; [reflexivity|]. split; [reflexivity|]. now left. }
  destruct (first_unreadable (disk w) fd) as [e1|].
  { eexists. eexists. split; [reflexivity|]. split; [reflexivity|]. now left. }
  eexists. eexists. split; [reflexivity|]. split; [reflexivity|]. right.
  cbn [sent set_disk tick logged]. eauto.
Qed.

Lemma single_handler_cleans req file w :
  req_file req = Some file -> path file <> "" ->
  exists resp w',
    run (ServerJs.upload_handler cfg ext req) w = (Ok resp, w')
    /\ disk w' = drop_if (fun _ => true) (disk w) (path file)
    /\ (sent w' = sent w \/ exists rq, sent w' = sent w ++ [rq]).
Proof.
  intros Hfile Hpath. rewrite (run_single_handler req file w Hfile Hpath). cbn zeta.
  destruct (ServerJs.build_form _ _) as [fd|e0].
  2: { eexists. eexists. split; [reflexivity|]. split; [reflexivity|]. now left. }
  destruct (first_unreadable (disk w) fd) as [e1|].
  { eexists. eexists. split; [reflexivity|]. split; [reflexivity|]. now left. }
  eexists. eexists. split; [reflexivity|]. split; [reflexivity|]. right.
  cbn [sent set_disk tick logged]. eauto.
Qed.

End Relay.

(** C4, as amended.  What a handler with files answers, case by case.  The
    [try] block can fail before anything is posted: an [append] throws (a
    text field that is an array or an object), or a staged file cannot be
    read; the answer is then the handler's own 500 with the error's message,
    and no request has gone out.  Otherwise the form is posted once, with
    [validateStatus] accepting every status, and the answer axios hands
    over is a result: a status outside 200..299 is sent back under that very
    status (with the downstream's body in the batch script, the status in
    [server.js]), a status inside it gives 200; the handler's own 500 is
    sent when axios hands over no answer.  The answer axios hands over is
    the downstream's when it comes in time and is no redirect; a 3xx answer
    with a Location is not handed over but followed, and the answer of the
    target is handed over in its place.  [breq] is a request of the batch
    script with files, [sreq] a request of [server.js] with [req.file]
    set. *)
Theorem downstream_status_forwarded (cfg : Config) (ext : External)
    (breq : Request) (files : list File) (sreq : Request) (file : File) (w : World) :
  req_files breq = Some files -> files <> [] ->
  req_file sreq = Some file -> path file <> "" ->
  (exists resp w',
     run (BatchJs.upload_handler cfg ext breq) w = (Ok resp, w')
     /\ match BatchJs.build_form breq files
                (Js.or_value (req_body breq !! "batch_id")
                   ("batch_" +:+ pretty (clock w))) (clock w) with
        | Throw e =>
            sent w' = sent w /\ resp = res_status_json 500 (Failure (message e))
        | Ok fd =>
            match first_unreadable (disk w) fd with
            | Some e =>
                sent w' = sent w /\ resp = res_status_json 500 (Failure (message e))
            | None =>
                let rq := {| url := N8N_WEBHOOK_URL cfg; form := fd; timeout := 600000 |} in
                sent w' = (sent w ++ [rq])%list
                /\ match delivered (max_redirects ext) 600000 (downstream ext rq) with
                   | Some (st, d) =>
                       if Js.in_range 200 300 st
                       then statusCode resp = 200%Z
                            /\ exists b n t, body resp = BatchUploaded b n t d
                       else resp = res_status_json st (N8nDetails "Error en N8N" d)
                   | None =>
                       resp = res_status_json 500
                                (Failure (failure_message (max_redirects ext) 600000
                                            (downstream ext rq)))
                   end
            end
        end)
  /\ (exists resp w',
        run (ServerJs.upload_handler cfg ext sreq) w = (Ok resp, w')
        /\ match ServerJs.build_form sreq file with
           | Throw e =>
               sent w' = sent w
               /\ resp = res_status_json 500
                           (FailureHint (message e)
                              "Check n8n is available and URL is correct")
           | Ok fd =>
               match first_unreadable (disk w) fd with
               | Some e =>
                   sent w' = sent w
                   /\ resp = res_status_json 500
                               (FailureHint (message e)
                                  "Check n8n is available and URL is correct")
               | None =>
                   let rq := {| url := N8N_WEBHOOK_URL cfg; form := fd;
                                timeout := 120000 |} in
                   sent w' = (sent w ++ [rq])%list
                   /\ match delivered (max_redirects ext) 120000 (downstream ext rq) with
                      | Some (st, d) =>
                          if Js.in_range 200 300 st
                          then statusCode resp = 200%Z
                               /\ exists n sz mb t j, body resp = Uploaded n sz mb t j
                          else resp = res_status_json st (N8nStatus "N8N error" st)
                      | None =>
                          resp = res_status_json 500
                                   (FailureHint
                                      (failure_message (max_redirects ext) 120000
                                         (downstream ext rq))
                                      "Check n8n is available and URL is correct")
                      end
               end
           end)
  /\ (forall tmo rp st d,
        outcome rp = Responded st d -> (elapsed rp <= tmo)%Z ->
        delivered (max_redirects ext) tmo rp = Some (st, d))
  /\ (forall tmo rp st location wait st' d,
        outcome rp = Relocated st location wait (Responded st' d) ->
        (elapsed rp <= tmo)%Z -> (elapsed rp + wait <= tmo)%Z ->
        max_redirects ext <> 0%nat ->
        delivered (max_redirects ext) tmo rp = Some (st', d)).
Proof.
  intros Hfiles Hne Hfile Hpath. split; [|split; [|split]]; cbn zeta.
  - rewrite (run_batch_handler cfg ext breq files w Hfiles Hne). cbn zeta.
    destruct (BatchJs.build_form _ _ _ _) as [fd|e0].
    2: { eexists. eexists. split; [reflexivity|]. split; reflexivity. }
    destruct (first_unreadable (disk w) fd) as [e1|].
    { eexists. eexists. split; [reflexivity|]. split; reflexivity. }
    eexists. eexists. split; [reflexivity|]. split; [reflexivity|].
    destruct (delivered _ 600000 _) as [[st d]|]; [|reflexivity].
    destruct (Js.in_range 200 300 st); [|reflexivity].
    split; [reflexivity|]. cbn [body res_json]. eauto.
  - rewrite (run_single_handler cfg ext sreq file w Hfile Hpath). cbn zeta.
    destruct (ServerJs.build_form _ _) as [fd|e0].
    2: { eexists. eexists. split; [reflexivity|]. split; reflexivity. }
    destruct (first_unreadable (disk w) fd) as [e1|].
    { eexists. eexists. split; [reflexivity|]. split; reflexivity. }
    eexists. eexists. split; [reflexivity|]. split; [reflexivity|].
    destruct (delivered _ 120000 _) as [[st d]|]; [|reflexivity].
    destruct (Js.in_range 200 300 st); [|reflexivity].
    split; [reflexivity|]. cbn [body res_json]. eauto 10.
  - intros tmo rp st d Hout Hfast.
    now destruct (delivered_direct (max_redirects ext) tmo rp st d Hout Hfast).
  - intros tmo rp st location wait st' d Hout Hfast Hfast' Hfuel.
    unfold delivered. rewrite Hout. cbn [settle_chain].
    rewrite (proj2 (Z.ltb_ge _ _)) by exact Hfast.
    destruct (max_redirects ext) as [|fuel]; [contradiction|].
    rewrite (proj2 (Z.ltb_ge _ _)) by exact Hfast'. reflexivity.
Qed.

Lemma downstream_status_forwarded_witness :
  (exists resp w',
      run (BatchJs.upload_handler Samples.cfg0 (Samples.answers 503)
             {| req_file := None;
                req_files := Some [Samples.staged "./uploads/1-x-a.pdf" "a.pdf" 10];
                req_body := ∅ |}) (Samples.holding "./uploads/1-x-a.pdf") = (Ok resp, w')
      /\ length (sent w') = 1%nat
      /\ resp = res_status_json 503
                  (N8nDetails "Error en N8N" {| jobId := None; payload := "{}" |}))
  /\ (exists resp w',
         run (ServerJs.upload_handler Samples.cfg0 Samples.refuses
                {| req_file := Some (Samples.staged "./uploads/1-x-a.pdf" "a.pdf" 10);
                   req_files := None; req_body := ∅ |})
           (Samples.holding "./uploads/1-x-a.pdf") = (Ok resp, w')
         /\ length (sent w') = 1%nat
         /\ resp = res_status_json 500
                     (FailureHint "connect ECONNREFUSED 127.0.0.1:5678"
                        "Check n8n is available and URL is correct")).
Proof.
  split.
  - destruct (downstream_status_forwarded Samples.cfg0 (Samples.answers 503)
                {| req_file := None;
                   req_files := Some [Samples.staged "./uploads/1-x-a.pdf" "a.pdf" 10];
                   req_body := ∅ |}
                [Samples.staged "./uploads/1-x-a.pdf" "a.pdf" 10]
                {| req_file := Some (Samples.staged "./uploads/1-x-a.pdf" "a.pdf" 10);
                   req_files := None; req_body := ∅ |}
                (Samples.staged "./uploads/1-x-a.pdf" "a.pdf" 10)
                (Samples.holding "./uploads/1-x-a.pdf")
                eq_refl ltac:(discriminate) eq_refl ltac:(discriminate))
      as [[resp [w' [Hrun Hst]]] _].
    exists resp, w'. split; [exact Hrun|]. vm_compute in Hst.
    destruct Hst as [Hsent Hresp]. split; [exact (f_equal length Hsent)|exact Hresp].
  - destruct (downstream_status_forwarded Samples.cfg0 Samples.refuses
                {| req_file := None;
                   req_files := Some [Samples.staged "./uploads/1-x-a.pdf" "a.pdf" 10];
                   req_body := ∅ |}
                [Samples.staged "./uploads/1-x-a.pdf" "a.pdf" 10]
                {| req_file := Some (Samples.staged "./uploads/1-x-a.pdf" "a.pdf" 10);
                   req_files := None; req_body := ∅ |}
                (Samples.staged "./uploads/1-x-a.pdf" "a.pdf" 10)
                (Samples.holding "./uploads/1-x-a.pdf")
                eq_refl ltac:(discriminate) eq_refl ltac:(discriminate))
      as [_ [[resp [w' [Hrun Hst]]] _]].
    exists resp, w'. split; [exact Hrun|]. vm_compute in Hst.
    destruct Hst as [Hsent Hresp]. split; [exact (f_equal length Hsent)|exact Hresp].
Defined.

(** C4 as the specification words it fails.  The downstream answers the
    relay request with 302 and a Location, and the target of the Location
    answers 200: axios follows the redirect, so the caller gets 200 and
    never sees the 302.  And the handler's own 500 needs no network failure:
    when the staged file is not on the disk the answer is 500 and nothing
    has been posted. *)
Lemma redirect_is_not_forwarded :
  (exists relay w',
     run (BatchJs.upload_handler Samples.cfg0 Fixtures.redirects
            {| req_file := None;
               req_files := Some [Samples.staged "./uploads/1-x-a.pdf" "a.pdf" 10];
               req_body := ∅ |}) (Samples.holding "./uploads/1-x-a.pdf")
     = (Ok (res_json (BatchUploaded "batch_1700000000000" 1 100
                        {| jobId := None; payload := "{}" |})), w')
     /\ sent w' = [relay]
     /\ outcome (downstream Fixtures.redirects relay)
        = Relocated 302 "http://n8n.local/webhook/moved" 60
            (Responded 200 {| jobId := None; payload := "{}" |}))
  /\ (exists resp w',
        run (ServerJs.upload_handler Samples.cfg0 (Samples.answers 200)
               {| req_file := Some (Samples.staged "./uploads/1-x-a.pdf" "a.pdf" 10);
                  req_files := None; req_body := ∅ |}) Samples.w0
        = (Ok resp, w')
        /\ statusCode resp = 500%Z /\ sent w' = []).
Proof.
  split.
  - eexists. eexists. split; [vm_compute; reflexivity|]. split; reflexivity.
  - eexists. eexists. split; [vm_compute; reflexivity|]. split; reflexivity.
Qed.

(** With axios' default [validateStatus], which the scripts override, a
    503 would have been thrown instead. *)
Example settle_default_rejects :
  settle (Js.in_range 200 300) 503 {| jobId := None; payload := "" |}
  = Throw (AxiosError "ERR_BAD_RESPONSE" "Request failed with status code 503").
Proof. reflexivity. Qed.

(** C5.  After a handler that has got past the check for files returns,
    whether the form could not be built or read, the downstream answered
    with success, answered with another status, or no answer arrived, no
    staged file of the request is on the disk: [f] is any file of a batch
    request, [file] the file of a single-file request.  A staged path, when
    present, is a regular file, as multer wrote it. *)
Theorem staged_files_deleted (cfg : Config) (ext : External)
    (breq : Request) (files : list File) (f : File)
    (sreq : Request) (file : File) (w : World) :
  req_files breq = Some files -> f ∈ files ->
  (forall e, disk w !! path f = Some e -> kind e = RegularFile) ->
  req_file sreq = Some file -> path file <> "" ->
  (forall e, disk w !! path file = Some e -> kind e = RegularFile) ->
  (exists resp w',
      run (BatchJs.upload_handler cfg ext breq) w = (Ok resp, w')
      /\ disk w' !! path f = None)
  /\ (exists resp w',
         run (ServerJs.upload_handler cfg ext sreq) w = (Ok resp, w')
         /\ disk w' !! path file = None).
Proof.
  intros Hfiles Hin Hreg Hfile Hpath Hreg1. split.
  - assert (Hne : files <> []) by (intros ->; now apply not_elem_of_nil in Hin).
    destruct (batch_handler_cleans cfg ext breq files w Hfiles Hne)
      as [resp [w' [Hrun [Hdisk _]]]].
    exists resp, w'. split; [exact Hrun|].
    rewrite Hdisk, lookup_drop_all.
    destruct (disk w !! path f) as [e|] eqn:He; [|reflexivity].
    unfold is_regular. rewrite (Hreg e eq_refl).
    rewrite bool_decide_eq_true_2; [reflexivity|].
    apply list_elem_of_fmap. now exists f.
  - destruct (single_handler_cleans cfg ext sreq file w Hfile Hpath)
      as [resp [w' [Hrun [Hdisk _]]]].
    exists resp, w'. split; [exact Hrun|].
    rewrite Hdisk, lookup_drop_if.
    destruct (disk w !! path file) as [e|] eqn:He; [|reflexivity].
    unfold is_regular. rewrite (Hreg1 e eq_refl).
    now rewrite bool_decide_eq_true_2.
Qed.

Lemma staged_files_deleted_witness :
  disk (snd (run (BatchJs.upload_handler Samples.cfg0 Samples.refuses
                    {| req_file := None;
                       req_files := Some [Samples.staged "./uploads/1-x-a.pdf" "a.pdf" 10];
                       req_body := ∅ |}) (Samples.holding "./uploads/1-x-a.pdf")))
    !! "./uploads/1-x-a.pdf" = None
  /\ disk (snd (run (ServerJs.upload_handler Samples.cfg0 (Samples.answers 200)
                       {| req_file := Some (Samples.staged "./uploads/1-x-a.pdf" "a.pdf" 10);
                          req_files := None; req_body := ∅ |})
                  (Samples.holding "./uploads/1-x-a.pdf")))
       !! "./uploads/1-x-a.pdf" = None.
Proof.
  assert (Hreg : forall e,
             disk (Samples.holding "./uploads/1-x-a.pdf") !! "./uploads/1-x-a.pdf" = Some e ->
             kind e = RegularFile).
  { intros e He. vm_compute in He. injection He as <-. reflexivity. }
  split.
  - destruct (staged_files_deleted Samples.cfg0 Samples.refuses
                {| req_file := None;
                   req_files := Some [Samples.staged "./uploads/1-x-a.pdf" "a.pdf" 10];
                   req_body := ∅ |}
                [Samples.staged "./uploads/1-x-a.pdf" "a.pdf" 10]
                (Samples.staged "./uploads/1-x-a.pdf" "a.pdf" 10)
                {| req_file := Some (Samples.staged "./uploads/1-x-a.pdf" "a.pdf" 10);
                   req_files := None; req_body := ∅ |}
                (Samples.staged "./uploads/1-x-a.pdf" "a.pdf" 10)
                (Samples.holding "./uploads/1-x-a.pdf")
                eq_refl ltac:(apply list_elem_of_here) Hreg eq_refl ltac:(discriminate) Hreg)
      as [[resp [w' [Hrun Hgone]]] _].
    rewrite Hrun. exact Hgone.
  - destruct (staged_files_deleted Samples.cfg0 (Samples.answers 200)
                {| req_file := None;
                   req_files := Some [Samples.staged "./uploads/1-x-a.pdf" "a.pdf" 10];
                   req_body := ∅ |}
                [Samples.staged "./uploads/1-x-a.pdf" "a.pdf" 10]
                (Samples.staged "./uploads/1-x-a.pdf" "a.pdf" 10)
                {| req_file := Some (Samples.staged "./uploads/1-x-a.pdf" "a.pdf" 10);
                   req_files := None; req_body := ∅ |}
                (Samples.staged "./uploads/1-x-a.pdf" "a.pdf" 10)
                (Samples.holding "./uploads/1-x-a.pdf")
                eq_refl ltac:(apply list_elem_of_here) Hreg eq_refl ltac:(discriminate) Hreg)
      as [_ [resp [w' [Hrun Hgone]]]].
    rewrite Hrun. exact Hgone.
Defined.

(** ** The upload middleware *)

Section Multer.

Variable cfg : Config.
Variable ext : External.

Lemma run_handle_file u w :
  run (handle_file cfg ext u) w
  = (Ok (stored_as cfg ext u w),
     set_disk (<[path (stored_as cfg ext u w) :=
                  {| kind := RegularFile; size := fsize (stored_as cfg ext u w);
                     mtimeMs := clock w |}]> (disk w)) (drawn w)).
Proof. reflexivity. Qed.

Lemma run_abort {A : Type} (uploaded : list File) (e : Error) w :
  run (abort (A := A) uploaded e) w
  = (Throw e, set_disk (foldl (drop_if (fun _ => true)) (disk w) (map path uploaded)) w).
Proof.
  unfold run, abort, bind.
  pose proof (run_for_each_map path (fun p => fs_unlink p ignore_error) uploaded w) as Hmap.
  unfold run in Hmap. rewrite Hmap.
  pose proof (run_for_each_drop (fun _ => true) (fun p => fs_unlink p ignore_error)
                run_unlink (map path uploaded) w) as Hdrop.
  unfold run in Hdrop. now rewrite Hdrop.
Qed.

(** Aborting removes the files written so far and adds nothing. *)
Lemma abort_cleans {A : Type} (uploaded : list File) (e : Error) w :
  all_staged uploaded w ->
  exists w',
    run (abort (A := A) uploaded e) w = (Throw e, w')
    /\ sent w' = sent w /\ clock w' = clock w
    /\ (forall f, f ∈ uploaded -> disk w' !! path f = None)
    /\ (forall p, disk w' !! p = None \/ disk w' !! p = disk w !! p).
Proof.
  intros Hst. eexists. split; [apply run_abort|].
  split; [reflexivity|]. split; [reflexivity|]. cbn [disk set_disk]. split.
  - intros f Hf. rewrite lookup_drop_all.
    destruct (Hst f Hf) as [en [-> Hk]]. unfold is_regular. rewrite Hk.
    rewrite bool_decide_eq_true_2; [reflexivity|].
    apply list_elem_of_fmap. now exists f.
  - intros p. rewrite lookup_drop_all. destruct (disk w !! p) as [en|]; [|now left].
    destruct (_ && _); [now left|now right].
Qed.

(** Storing one more part keeps the files written so far staged. *)
Lemma staged_after_store uploaded u w :
  all_staged uploaded w ->
  all_staged (uploaded ++ [stored_as cfg ext u w])
    (set_disk (<[path (stored_as cfg ext u w) :=
                  {| kind := RegularFile; size := fsize (stored_as cfg ext u w);
                     mtimeMs := clock w |}]> (disk w)) (drawn w)).
Proof.
  intros Hst f Hf. cbn [disk set_disk].
  destruct (decide (path f = path (stored_as cfg ext u w))) as [->|Hne].
  - rewrite lookup_insert_eq. eauto.
  - rewrite lookup_insert_ne by congruence.
    apply elem_of_app in Hf as [Hf|Hf]; [now apply Hst|].
    apply list_elem_of_singleton in Hf. now subst f.
Qed.

Lemma receive_inv name parts : forall filesLeft uploaded w,
  all_staged uploaded w ->
  exists r w',
    run (receive cfg ext name filesLeft uploaded parts) w = (r, w')
    /\ sent w' = sent w /\ clock w' = clock w
    /\ match r with
       | Ok stored =>
           (exists new, stored = uploaded ++ new)
           /\ all_staged stored w'
           /\ (forall p, p ∉ map path stored -> disk w' !! p = disk w !! p)
       | Throw _ =>
           (forall f, f ∈ uploaded -> disk w' !! path f = None)
           /\ (forall p, disk w' !! p = None \/ disk w' !! p = disk w !! p)
       end.
Proof.
  induction parts as [|u rest IH]; intros filesLeft uploaded w Hst.
  - exists (Ok uploaded), w. repeat split; try assumption.
    exists []. now rewrite app_nil_r.
  - cbn [receive]. destruct (String.eqb (up_originalname u) ""); [now apply IH|].
    destruct (negb _).
    { destruct (abort_cleans (A := list File) uploaded
                  (MulterError LIMIT_UNEXPECTED_FILE (up_fieldname u)) w Hst)
        as [w' [Hrun [Hs [Hc [Hgone Hsub]]]]].
      exists (Throw (MulterError LIMIT_UNEXPECTED_FILE (up_fieldname u))), w'.
      repeat split; assumption. }
    destruct (fileFilter u) as [err|].
    { destruct (abort_cleans (A := list File) uploaded err w Hst)
        as [w' [Hrun [Hs [Hc [Hgone Hsub]]]]].
      exists (Throw err), w'. repeat split; assumption. }
    unfold run, bind. pose proof (run_handle_file u w) as Hstore.
    unfold run in Hstore. rewrite Hstore.
    pose proof (staged_after_store uploaded u w Hst) as Hst'.
    set (f := stored_as cfg ext u w) in *. set (wu := set_disk _ _) in *.
    assert (Hother : forall p, p <> path f -> disk wu !! p = disk w !! p).
    { intros p Hp. unfold wu. cbn [disk set_disk]. now rewrite lookup_insert_ne. }
    assert (Hfin : f ∈ uploaded ++ [f]).
    { apply elem_of_app. right. apply list_elem_of_here. }
    destruct (over_limit cfg ext (up_size u)).
    + destruct (abort_cleans (A := list File) (uploaded ++ [f])
                  (MulterError LIMIT_FILE_SIZE (up_fieldname u)) wu Hst')
        as [w' [Hrun [Hs [Hc [Hgone Hsub]]]]].
      exists (Throw (MulterError LIMIT_FILE_SIZE (up_fieldname u))), w'.
      split; [exact Hrun|]. split; [exact Hs|]. split; [exact Hc|]. split.
      * intros g Hg. apply Hgone. apply elem_of_app. now left.
      * intros p. destruct (decide (p = path f)) as [->|Hp].
        -- left. now apply Hgone.
        -- destruct (Hsub p) as [Hn|Hn]; [now left|right]. now rewrite Hn, Hother.
    + destruct (IH (take_one filesLeft) (uploaded ++ [f]) wu Hst')
        as [r [w' [Hrun [Hs [Hc Hres]]]]].
      exists r, w'. split; [exact Hrun|]. split; [exact Hs|]. split; [exact Hc|].
      destruct r as [stored|err].
      * destruct Hres as [[new Hnew] [Hall Hkeep]]. split; [|split; [exact Hall|]].
        -- exists (f :: new). rewrite Hnew. now rewrite <- app_assoc.
        -- intros p Hp. rewrite (Hkeep p Hp). apply Hother. intros ->.
           apply Hp. apply list_elem_of_fmap. exists f. split; [reflexivity|].
           rewrite Hnew. apply elem_of_app. now left.
      * destruct Hres as [Hgone Hsub]. split.
        -- intros g Hg. apply Hgone. apply elem_of_app. now left.
        -- intros p. destruct (decide (p = path f)) as [->|Hp].
           ++ left. now apply Hgone.
           ++ destruct (Hsub p) as [Hn|Hn]; [now left|right]. now rewrite Hn, Hother.
Qed.

Lemma valid_pdf_inv name u :
  valid_pdf cfg ext name u = true ->
  String.eqb (up_originalname u) "" = false
  /\ String.eqb (up_fieldname u) name = true
  /\ fileFilter u = None
  /\ over_limit cfg ext (up_size u) = false.
Proof.
  unfold valid_pdf, fileFilter. intros H.
  apply andb_prop in H as [H Hsize]. apply andb_prop in H as [H Hmime].
  apply andb_prop in H as [Hname Hfield].
  apply negb_true_iff in Hname, Hsize. rewrite Hmime. auto.
Qed.


(** A part that declares another content type stops the upload, unless an
    earlier part already has: with every part within the size limit the
    error is the filter's or an unexpected field. *)
Lemma receive_rejects name parts bad : forall filesLeft uploaded w,
  bad ∈ parts ->
  String.eqb (up_originalname bad) "" = false ->
  String.eqb (up_mimetype bad) "application/pdf" = false ->
  Forall (fun u => over_limit cfg ext (up_size u) = false) parts ->
  exists e w',
    run (receive cfg ext name filesLeft uploaded parts) w = (Throw e, w')
    /\ (e = JsError "Solo PDFs permitidos"
        \/ exists fld, e = MulterError LIMIT_UNEXPECTED_FILE fld).
Proof.
  induction parts as [|u rest IH]; intros filesLeft uploaded w Hin Hname Hmime Hsizes.
  - now apply not_elem_of_nil in Hin.
  - apply Forall_cons in Hsizes as [Hsize Hrest].
    cbn [receive]. destruct (String.eqb (up_originalname u) "") eqn:Hu.
    { apply elem_of_cons in Hin as [->|Hin]; [congruence|]. now apply IH. }
    destruct (negb _).
    { eexists. eexists. split; [apply run_abort|]. right. eauto. }
    unfold fileFilter. destruct (String.eqb (up_mimetype u) "application/pdf") eqn:Hpdf;
      cbn [negb].
    2: { eexists. eexists. split; [apply run_abort|]. now left. }
    apply elem_of_cons in Hin as [->|Hin]; [congruence|].
    unfold run, bind. pose proof (run_handle_file u w) as Hstore.
    unfold run in Hstore. rewrite Hstore, Hsize.
    now apply IH.
Qed.

(** The error middleware never answers 413: no code of multer is
    ['FILE_TOO_LARGE']. *)
Lemma error_middleware_500 (e : Error) :
  error_middleware cfg e = res_status_json 500 (Failure (message e)).
Proof.
  unfold error_middleware. destruct e as [m|c fld|c m|c p0]; cbn [is_multer_error];
    try reflexivity.
  rewrite bool_decide_eq_false_2; [reflexivity|].
  destruct c; cbn; intros [=].
Qed.

Lemma run_route_throw (mw : M World Request) handler e w w' :
  run mw w = (Throw e, w') ->
  run (route cfg mw handler) w = (Ok (res_status_json 500 (Failure (message e))), w').
Proof.
  unfold run, route. intros ->. now rewrite error_middleware_500.
Qed.

Lemma run_route_ok (mw : M World Request) handler req w w' :
  run mw w = (Ok req, w') ->
  run (route cfg mw handler) w = run (handler req) w'.
Proof. unfold run, route. now intros ->. Qed.

Lemma run_upload_array name maxCount rq w r w' :
  run (receive cfg ext name maxCount [] (in_files rq)) w = (r, w') ->
  run (upload_array cfg ext name maxCount rq) w
  = (match r with
     | Ok stored => Ok {| req_file := None; req_files := Some stored;
                          req_body := in_fields rq |}
     | Throw e => Throw e
     end, w').
Proof.
  unfold run, upload_array, bind. intros ->. now destruct r.
Qed.

End Multer.

(** ** The form sent to the downstream *)

Section Form.




Lemma field_value_imap_files n rest (files : list File) : forall F : nat -> File -> Part,
  (forall i f, is_file_part (F i f) = true) ->
  field_value n (imap F files ++ rest) = field_value n rest.
Proof.
  induction files as [|f files IH]; intros F HF; [reflexivity|].
  cbn [imap app field_value]. specialize (HF 0%nat f) as H0.
  destruct (F 0%nat f); [|discriminate].
  apply IH. intros i g. apply HF.
Qed.

(** A form that has been built is the file parts followed by the six
    fields, each with the string it was given. *)
Lemma batch_build_form_inv req files b t fd :
  BatchJs.build_form req files b t = Ok fd ->
  fd = BatchJs.file_parts files
       ++ [ FieldPart "batch_id" (Js.as_text b);
            FieldPart "process_type" (or_text (req_body req !! "process_type") "GG");
            FieldPart "client_id" (or_text (req_body req !! "client_id") "INTELEC_SL");
            FieldPart "total_files" (pretty (length files));
            FieldPart "uploaded_by" "backend-api-batch";
            FieldPart "upload_timestamp" (JsDate.toISOString t) ].
Proof.
  unfold BatchJs.build_form, or_text, form_append.
  destruct b as [sb|ab|ob]; try discriminate.
  destruct (Js.or_value (req_body req !! "process_type") "GG") as [sp|ap|op];
    try discriminate.
  destruct (Js.or_value (req_body req !! "client_id") "INTELEC_SL") as [sc|ac|oc];
    try discriminate.
  intros [= <-]. cbn [Js.as_text]. now rewrite <- !app_assoc.
Qed.

Lemma single_build_form_inv req file fd :
  ServerJs.build_form req file = Ok fd ->
  fd = [ FilePart "file" (path file) (originalname file) "application/pdf";
         FieldPart "process_type" (or_text (req_body req !! "process_type") "GG");
         FieldPart "client_id" (or_text (req_body req !! "client_id") "INTELEC_SL");
         FieldPart "uploaded_by" "backend-api";
         FieldPart "file_size_mb" (ServerJs.size_mb (fsize file)) ].
Proof.
  unfold ServerJs.build_form, or_text, form_append, form_append_file, fs_createReadStream.
  destruct (Js.or_value (req_body req !! "process_type") "GG") as [sp|ap|op];
    try discriminate.
  destruct (Js.or_value (req_body req !! "client_id") "INTELEC_SL") as [sc|ac|oc];
    try discriminate.
  intros [= <-]. reflexivity.
Qed.

(** [v || d] is a string when [v] is absent or a string. *)
Lemma or_value_plain v d :
  plain v = true -> Js.or_value v d = Js.VString (or_text v d).
Proof.
  unfold or_text. destruct v as [[s|a|o]|]; cbn; try discriminate; intros _.
  - now destruct (String.eqb s "").
  - reflexivity.
Qed.

(** With plain text fields every [append] goes through. *)
Lemma batch_build_form_plain req files d t :
  plain_fields batch_fields (req_body req) = true ->
  exists fd,
    BatchJs.build_form req files (Js.or_value (req_body req !! "batch_id") d) t = Ok fd.
Proof.
  unfold plain_fields, batch_fields. cbn [forallb]. intros H.
  apply andb_prop in H as [Hb H]. apply andb_prop in H as [Hp H].
  apply andb_prop in H as [Hc _].
  unfold BatchJs.build_form.
  rewrite (or_value_plain _ d Hb), (or_value_plain _ "GG" Hp),
    (or_value_plain _ "INTELEC_SL" Hc).
  cbn [form_append]. eauto.
Qed.

Lemma single_build_form_plain req file :
  plain_fields single_fields (req_body req) = true ->
  exists fd, ServerJs.build_form req file = Ok fd.
Proof.
  unfold plain_fields, single_fields. cbn [forallb]. intros H.
  apply andb_prop in H as [Hp H]. apply andb_prop in H as [Hc _].
  unfold ServerJs.build_form.
  rewrite (or_value_plain _ "GG" Hp), (or_value_plain _ "INTELEC_SL" Hc).
  cbn [form_append form_append_file]. eauto.
Qed.

Lemma first_unreadable_imap d (files : list File) : forall F : nat -> File -> Part,
  (forall i f, part_source (F i f) = Some (path f)) ->
  (forall f, f ∈ files -> exists e, d !! path f = Some e /\ kind e = RegularFile) ->
  forall rest, first_unreadable d (imap F files ++ rest) = first_unreadable d rest.
Proof.
  induction files as [|f files IH]; intros F HF Hst rest; [reflexivity|].
  cbn [imap app first_unreadable]. specialize (HF 0%nat f) as H0.
  destruct (F 0%nat f) as [n src fn ct|n v]; [|discriminate].
  cbn in H0. injection H0 as ->.
  destruct (Hst f) as [e [-> ->]]; [apply list_elem_of_here|].
  apply IH.
  - intros i g. apply HF.
  - intros g Hg. apply Hst. now apply list_elem_of_further.
Qed.

(** A built form whose files are all staged can be read. *)
Lemma batch_form_readable req files b t fd w :
  BatchJs.build_form req files b t = Ok fd ->
  all_staged files w ->
  first_unreadable (disk w) fd = None.
Proof.
  intros Hfd Hst. rewrite (batch_build_form_inv req files b t fd Hfd).
  unfold BatchJs.file_parts. rewrite first_unreadable_imap; [reflexivity| |exact Hst].
  reflexivity.
Qed.

Lemma single_form_readable req file fd w e :
  ServerJs.build_form req file = Ok fd ->
  disk w !! path file = Some e -> kind e = RegularFile ->
  first_unreadable (disk w) fd = None.
Proof.
  intros Hfd He Hk. rewrite (single_build_form_inv req file fd Hfd).
  cbn [first_unreadable]. now rewrite He, Hk.
Qed.


Lemma field_value_after_files n files rest :
  field_value n (BatchJs.file_parts files ++ rest) = field_value n rest.
Proof. apply field_value_imap_files. reflexivity. Qed.


Lemma batch_form_defaults req files b t fd :
  BatchJs.build_form req files b t = Ok fd ->
  req_body req !! "process_type" = None -> req_body req !! "client_id" = None ->
  field_value "process_type" fd = Some "GG"
  /\ field_value "client_id" fd = Some "INTELEC_SL".
Proof.
  intros Hfd Hp Hc. rewrite (batch_build_form_inv req files b t fd Hfd).
  rewrite !field_value_after_files. cbn. now rewrite Hp, Hc.
Qed.

End Form.

(** ** The routes *)

Section Routes.

Variable cfg : Config.
Variable ext : External.

(** When the upload middleware stops, the route answers 500 with the
    error's message, the handler is not run and nothing the request
    brought is left on the disk. *)
Lemma route_rejects name maxCount handler rq bad w :
  bad ∈ in_files rq ->
  up_originalname bad <> "" ->
  up_mimetype bad <> "application/pdf" ->
  Forall (fun u => over_limit cfg ext (up_size u) = false) (in_files rq) ->
  exists resp w',
    run (route cfg (upload_array cfg ext name maxCount rq) handler) w = (Ok resp, w')
    /\ statusCode resp = 500%Z
    /\ (body resp = Failure "Solo PDFs permitidos" \/ body resp = Failure "Unexpected field")
    /\ sent w' = sent w
    /\ (forall p, disk w' !! p = None \/ disk w' !! p = disk w !! p)
    /\ (forall rest, in_files rq = bad :: rest -> w' = w).
Proof.
  intros Hin Hname Hmime Hsizes.
  apply String.eqb_neq in Hname, Hmime.
  destruct (receive_rejects cfg ext name (in_files rq) bad maxCount [] w
              Hin Hname Hmime Hsizes) as [e [w' [Hrun He]]].
  destruct (receive_inv cfg ext name (in_files rq) maxCount [] w) as [r [w2 [Hrun2 [Hs [_ Hres]]]]].
  { intros f Hf. now apply not_elem_of_nil in Hf. }
  rewrite Hrun in Hrun2. injection Hrun2 as <- <-. destruct Hres as [_ Hsub].
  exists (res_status_json 500 (Failure (message e))), w'. split; [|split; [|split; [|split; [|split]]]].
  - apply run_route_throw. now rewrite (run_upload_array cfg ext name maxCount rq w _ _ Hrun).
  - reflexivity.
  - destruct He as [->|[fld ->]]; [now left|now right].
  - exact Hs.
  - exact Hsub.
  - intros rest Hfirst. rewrite Hfirst in Hrun. unfold run in Hrun.
    cbn [receive] in Hrun. rewrite Hname in Hrun.
    pose proof (fun e0 => run_abort (A := list File) [] e0 w) as Hab.
    unfold run in Hab. cbn [map foldl] in Hab. rewrite set_disk_same in Hab.
    destruct (negb _) in Hrun; [rewrite Hab in Hrun; congruence|].
    unfold fileFilter in Hrun. rewrite Hmime in Hrun. cbn [negb] in Hrun.
    rewrite Hab in Hrun. congruence.
Qed.

(** The route of [server.js] never posts to the downstream: the handler
    reads [req.file], which [upload.array] leaves unset. *)
Lemma server_route_never_relays rq w :
  exists resp w',
    run (ServerJs.upload_route cfg ext rq) w = (Ok resp, w')
    /\ sent w' = sent w
    /\ (statusCode resp = 400 \/ statusCode resp = 500)%Z.
Proof.
  destruct (receive_inv cfg ext "file" (in_files rq) None [] w) as [r [w1 [Hrun [Hs _]]]].
  { intros f Hf. now apply not_elem_of_nil in Hf. }
  pose proof (run_upload_array cfg ext "file" None rq w r w1 Hrun) as Hmw.
  unfold ServerJs.upload_route. destruct r as [stored|e].
  - rewrite (run_route_ok cfg _ _ _ w w1 Hmw).
    rewrite run_single_handler_no_file by reflexivity.
    eexists. eexists. split; [reflexivity|]. split; [exact Hs|]. now left.
  - rewrite (run_route_throw cfg _ _ e w w1 Hmw).
    eexists. eexists. split; [reflexivity|]. split; [exact Hs|]. now right.
Qed.

(** The batch route leaves no file behind, whatever the request and
    whatever the downstream does: multer removes what it wrote when it stops,
    and the handler removes every file it was given. *)
Lemma batch_route_leaves_nothing rq w :
  exists resp w',
    run (BatchJs.upload_route cfg ext rq) w = (Ok resp, w')
    /\ forall p, disk w' !! p = None \/ disk w' !! p = disk w !! p.
Proof.
  destruct (receive_inv cfg ext "files" (in_files rq) (Some 10%nat) [] w)
    as [r [w1 [Hrun [_ [_ Hres]]]]].
  { intros f Hf. now apply not_elem_of_nil in Hf. }
  pose proof (run_upload_array cfg ext "files" (Some 10%nat) rq w r w1 Hrun) as Hmw.
  unfold BatchJs.upload_route. destruct r as [stored|e].
  - destruct Hres as [_ [Hall Hkeep]].
    rewrite (run_route_ok cfg _ _ _ w w1 Hmw). destruct stored as [|f0 stored].
    + rewrite run_batch_handler_empty by reflexivity.
      eexists. eexists. split; [reflexivity|]. intros p. right.
      apply Hkeep. apply not_elem_of_nil.
    + destruct (batch_handler_cleans cfg ext
                  {| req_file := None; req_files := Some (f0 :: stored);
                     req_body := in_fields rq |} (f0 :: stored) w1 eq_refl)
        as [resp [w2 [Hh [Hdisk _]]]]; [discriminate|].
      rewrite Hh. exists resp, w2. split; [reflexivity|]. intros p.
      rewrite Hdisk, lookup_drop_all.
      destruct (decide (p ∈ map path (f0 :: stored))) as [Hin|Hout].
      * apply list_elem_of_fmap in Hin as [f [-> Hf]].
        destruct (Hall f Hf) as [en [-> Hk]]. unfold is_regular. rewrite Hk.
        rewrite bool_decide_eq_true_2; [now left|].
        apply list_elem_of_fmap. now exists f.
      * right. rewrite (Hkeep p Hout). destruct (disk w !! p) as [en|]; [|reflexivity].
        rewrite (bool_decide_eq_false_2 _ Hout). now rewrite andb_false_r.
  - destruct Hres as [_ Hsub].
    rewrite (run_route_throw cfg _ _ e w w1 Hmw).
    eexists. eexists. split; [reflexivity|]. exact Hsub.
Qed.

(** The batch handler when nothing fails before the request goes out: the
    text fields are plain and the files are staged. *)
Lemma run_batch_handler_posted req files w :
  req_files req = Some files -> files <> [] ->
  plain_fields batch_fields (req_body req) = true ->
  all_staged files w ->
  exists fd,
    BatchJs.build_form req files
      (Js.or_value (req_body req !! "batch_id") ("batch_" +:+ pretty (clock w))) (clock w)
    = Ok fd
    /\ let rq := {| url := N8N_WEBHOOK_URL cfg; form := fd; timeout := 600000 |} in
       let rp := downstream ext rq in
       let w1 := tick (waited (max_redirects ext) 600000 rp) (logged rq w) in
       run (BatchJs.upload_handler cfg ext req) w
       = (Ok (match delivered (max_redirects ext) 600000 rp with
              | Some (st, d) =>
                  if Js.in_range 200 300 st
                  then res_json
                         (BatchUploaded
                            (or_text (req_body req !! "batch_id")
                               ("batch_" +:+ pretty (clock w)))
                            (length files) (clock w1 - clock w) d)
                  else res_status_json st (N8nDetails "Error en N8N" d)
              | None =>
                  res_status_json 500
                    (Failure (failure_message (max_redirects ext) 600000 rp))
              end),
          set_disk (foldl (drop_if (fun _ => true)) (disk w1) (map path files)) w1).
Proof.
  intros Hfiles Hne Hplain Hst.
  destruct (batch_build_form_plain req files ("batch_" +:+ pretty (clock w)) (clock w) Hplain)
    as [fd Hfd].
  exists fd. split; [exact Hfd|]. cbn zeta.
  rewrite (run_batch_handler cfg ext req files w Hfiles Hne). cbn zeta.
  rewrite Hfd, (batch_form_readable _ _ _ _ _ _ Hfd Hst). reflexivity.
Qed.

End Routes.




(** C2, as amended.  When a part of an upload declares a content type other
    than [application/pdf] (it has a file name, and no part of the request
    is over the size limit), either route answers 500, through the
    catch-all of the error middleware, with the filter's message (or
    multer's unexpected-field message, when an earlier check stops the
    upload first); the handler is not run, nothing is posted, no file of
    the request is left on the disk, and when the offending part is the
    first one nothing is written at all. *)
Theorem non_pdf_answers_500 (cfg : Config) (ext : External) (rq : Incoming)
    (bad : Upload) (w : World) :
  bad ∈ in_files rq ->
  up_originalname bad <> "" ->
  up_mimetype bad <> "application/pdf" ->
  Forall (fun u => over_limit cfg ext (up_size u) = false) (in_files rq) ->
  (exists resp w',
      run (ServerJs.upload_route cfg ext rq) w = (Ok resp, w')
      /\ statusCode resp = 500%Z
      /\ (body resp = Failure "Solo PDFs permitidos" \/ body resp = Failure "Unexpected field")
      /\ sent w' = sent w
      /\ (forall p, disk w' !! p = None \/ disk w' !! p = disk w !! p)
      /\ (forall rest, in_files rq = bad :: rest -> w' = w))
  /\ (exists resp w',
         run (BatchJs.upload_route cfg ext rq) w = (Ok resp, w')
         /\ statusCode resp = 500%Z
         /\ (body resp = Failure "Solo PDFs permitidos" \/ body resp = Failure "Unexpected field")
         /\ sent w' = sent w
         /\ (forall p, disk w' !! p = None \/ disk w' !! p = disk w !! p)
         /\ (forall rest, in_files rq = bad :: rest -> w' = w)).
Proof.
  intros Hin Hname Hmime Hsizes. split.
  - unfold ServerJs.upload_route. now apply route_rejects with (bad := bad).
  - unfold BatchJs.upload_route. now apply route_rejects with (bad := bad).
Qed.

Lemma non_pdf_answers_500_witness :
  run (ServerJs.upload_route Samples.cfg0 (Samples.answers 200)
         (Samples.request [Samples.text "file" "notas.txt" 12])) Samples.w0
  = (Ok (res_status_json 500 (Failure "Solo PDFs permitidos")), Samples.w0).
Proof.
  destruct (non_pdf_answers_500 Samples.cfg0 (Samples.answers 200)
              (Samples.request [Samples.text "file" "notas.txt" 12])
              (Samples.text "file" "notas.txt" 12) Samples.w0)
    as [[resp [w' [Hrun [_ [_ [_ [_ Hsame]]]]]]] _].
  - apply list_elem_of_In. now left.
  - discriminate.
  - discriminate.
  - repeat constructor.
  - rewrite <- (Hsame [] eq_refl) at 2. rewrite Hrun. f_equal.
    rewrite (Hsame [] eq_refl) in Hrun. vm_compute in Hrun. now injection Hrun as <-.
Defined.

(** C2 as the specification words it fails: a text file sent as the only
    part gets status 500, which is no 4xx status.  Nothing is written. *)
Lemma non_pdf_is_not_4xx :
  run (ServerJs.upload_route Samples.cfg0 (Samples.answers 200)
         (Samples.request [Samples.text "file" "notas.txt" 12])) Samples.w0
  = (Ok (res_status_json 500 (Failure "Solo PDFs permitidos")), Samples.w0)
  /\ run (BatchJs.upload_route Samples.cfg0 (Samples.answers 200)
            (Samples.request [Samples.text "files" "notas.txt" 12])) Samples.w0
     = (Ok (res_status_json 500 (Failure "Solo PDFs permitidos")), Samples.w0)
  /\ is_4xx 500 = false.
Proof. repeat split; vm_compute; reflexivity. Qed.

(** C1 on the code.  A 2 MiB PDF sent to the route of [server.js] as the
    part [file], with no other field, is stored by multer and the handler
    answers 400, "No file found": nothing is posted and the stored file
    stays on the disk.  Had [req.file] been set, as [upload.single] sets it,
    the same handler would post once with the default fields and answer 200
    with [fileSizeMB] "2.00" and a generated job id. *)
Theorem single_upload_answers_400 :
  run (ServerJs.upload_route Samples.cfg0 (Samples.answers 200)
         (Samples.request [Samples.pdf "file" "oferta.pdf" 2097152])) Samples.w0
  = (Ok (res_status_json 400 (Failure "No file found")),
     set_disk (<["./uploads/1700000000000-82mvy0-oferta.pdf" :=
                  {| kind := RegularFile; size := 2097152; mtimeMs := 1700000000000 |}]> ∅)
       (drawn Samples.w0))
  /\ (let file := stored_as Samples.cfg0 (Samples.answers 200)
                    (Samples.pdf "file" "oferta.pdf" 2097152) Samples.w0 in
      exists w',
        run (ServerJs.upload_handler Samples.cfg0 (Samples.answers 200)
               {| req_file := Some file; req_files := None; req_body := ∅ |})
          (Samples.holding (path file))
        = (Ok (res_json (Uploaded "oferta.pdf" 2097152 "2.00" 1500 "job_1700000001500")), w')
        /\ sent w'
           = [ {| url := Some "http://n8n.local/webhook/licitaciones";
                  form := [ FilePart "file" "./uploads/1700000000000-82mvy0-oferta.pdf"
                              "oferta.pdf" "application/pdf";
                            FieldPart "process_type" "GG";
                            FieldPart "client_id" "INTELEC_SL";
                            FieldPart "uploaded_by" "backend-api";
                            FieldPart "file_size_mb" "2.00" ];
                  timeout := 120000 |} ]
        /\ disk w' = ∅).
Proof.
  split; [vm_compute; reflexivity|].
  cbn zeta. eexists. split; [vm_compute; reflexivity|]. split; reflexivity.
Qed.

(** C3 on the code.  With the default limit of 80 MiB, a 90 MiB PDF makes
    multer stop with its [LIMIT_FILE_SIZE] error; the error middleware
    compares the code with ['FILE_TOO_LARGE'], so the 413 branch is not
    taken and the answer is 500, "File too large".  Nothing is posted and
    the cut file is removed.  No error whatever makes the middleware answer
    413. *)
Theorem oversized_upload_answers_500 :
  run (ServerJs.upload_route Samples.cfg0 (Samples.answers 200)
         (Samples.request [Samples.pdf "file" "grande.pdf" (90 * 1024 * 1024)])) Samples.w0
  = (Ok (res_status_json 500 (Failure "File too large")), drawn Samples.w0)
  /\ run (BatchJs.upload_route Samples.cfg0 (Samples.answers 200)
            (Samples.request [Samples.pdf "files" "grande.pdf" (90 * 1024 * 1024)])) Samples.w0
     = (Ok (res_status_json 500 (Failure "File too large")), drawn Samples.w0)
  /\ error_code (MulterError LIMIT_FILE_SIZE "file") = Some "LIMIT_FILE_SIZE"
  /\ forall e, statusCode (error_middleware Samples.cfg0 e) = 500%Z.
Proof.
  split; [vm_compute; reflexivity|]. split; [vm_compute; reflexivity|].
  split; [reflexivity|]. intros e. now rewrite error_middleware_500.
Qed.

(** For any configuration: a request whose only part is a PDF over the
    limit is answered 500, and the disk and the log gain nothing. *)
Lemma oversized_never_413 (cfg : Config) (ext : External) (u : Upload) (w : World) :
  up_originalname u <> "" ->
  up_fieldname u = "file" ->
  up_mimetype u = "application/pdf" ->
  over_limit cfg ext (up_size u) = true ->
  exists w',
    run (ServerJs.upload_route cfg ext {| in_fields := ∅; in_files := [u] |}) w
    = (Ok (res_status_json 500 (Failure "File too large")), w')
    /\ sent w' = sent w
    /\ forall p, disk w' !! p = None \/ disk w' !! p = disk w !! p.
Proof.
  intros Hname Hfield Hmime Hover. apply String.eqb_neq in Hname.
  destruct (receive_inv cfg ext "file" [u] None [] w) as [r [w1 [Hrun [Hs [_ Hres]]]]].
  { intros f Hf. now apply not_elem_of_nil in Hf. }
  assert (Hr : r = Throw (MulterError LIMIT_FILE_SIZE (up_fieldname u))).
  { unfold run in Hrun. cbn [receive] in Hrun. rewrite Hname in Hrun.
    unfold fileFilter in Hrun. rewrite Hfield, Hmime in Hrun.
    rewrite !String.eqb_refl in Hrun.
    cbn [has_left andb negb] in Hrun. unfold bind in Hrun.
    pose proof (run_handle_file cfg ext u w) as Hstore. unfold run in Hstore.
    rewrite Hstore, Hover in Hrun.
    pose proof (run_abort (A := list File) ([] ++ [stored_as cfg ext u w])
                  (MulterError LIMIT_FILE_SIZE "file")) as Hab.
    unfold run in Hab. rewrite Hab in Hrun. rewrite Hfield. congruence. }
  subst r. destruct Hres as [_ Hsub].
  exists w1. split; [|split; [exact Hs|exact Hsub]].
  unfold ServerJs.upload_route.
  apply (run_route_throw cfg _ _ (MulterError LIMIT_FILE_SIZE (up_fieldname u))).
  now rewrite (run_upload_array cfg ext "file" None
                 {| in_fields := ∅; in_files := [u] |} w _ _ Hrun).
Qed.

(** * Further properties *)

(** ** Strings *)

Section Strings.

Lemma append_cons c s t : String c s +:+ t = String c (s +:+ t).
Proof. reflexivity. Qed.

Lemma append_assoc s t u : (s +:+ t) +:+ u = s +:+ (t +:+ u).
Proof.
  induction s as [|c s IH]; [reflexivity|].
  rewrite !append_cons. now rewrite IH.
Qed.

Lemma length_append s t : String.length (s +:+ t) = (String.length s + String.length t)%nat.
Proof.
  induction s as [|c s IH]; [reflexivity|].
  rewrite append_cons. cbn [String.length]. now rewrite IH.
Qed.

Lemma append_inj_r s1 : forall s2 t, s1 +:+ t = s2 +:+ t -> s1 = s2.
Proof.
  induction s1 as [|c s1 IH]; intros [|d s2] t H.
  - reflexivity.
  - apply (f_equal String.length) in H. rewrite !length_append in H.
    cbn [String.length] in H. lia.
  - apply (f_equal String.length) in H. rewrite !length_append in H.
    cbn [String.length] in H. lia.
  - rewrite !append_cons in H. injection H as -> H. f_equal. now apply IH with t.
Qed.

Lemma append_inj_l s t1 t2 : s +:+ t1 = s +:+ t2 -> t1 = t2.
Proof.
  induction s as [|c s IH]; [easy|].
  rewrite !append_cons. intros [= H]. now apply IH.
Qed.

Lemma substring_from_short n : forall r,
  (String.length r <= n)%nat -> Js.substring_from n r = "".
Proof.
  induction n as [|n IH]; intros [|c r] H; cbn in *; try reflexivity; try lia.
  apply IH. lia.
Qed.

End Strings.

(** ** More on the staged file name *)

Section MoreNaming.
Import Naming.

Lemma one_pass_true_class_head c s :
  in_class c = true -> one_pass true (String c s) = one_pass false (String c s).
Proof. intros Hc. cbn [one_pass]. now rewrite Hc. Qed.

(** On a string the sanitizer could have produced, the pass changes
    nothing. *)
Lemma one_pass_fixed t :
  all_chars class_or_underscore t = true ->
  no_double_underscore t = true ->
  one_pass false t = t.
Proof.
  induction t as [|c t IH]; [reflexivity|].
  intros Hall Hnd. cbn [all_chars] in Hall. apply andb_prop in Hall as [Hc Hall].
  assert (Hnd' : no_double_underscore t = true).
  { destruct t as [|c' t]; [reflexivity|]. cbn [no_double_underscore] in Hnd.
    now apply andb_prop in Hnd as [_ Hnd]. }
  cbn [one_pass]. destruct (in_class c) eqn:Hin.
  - now rewrite IH.
  - f_equal; [unfold class_or_underscore in Hc; rewrite Hin in Hc;
              now apply Ascii.eqb_eq in Hc|].
    unfold class_or_underscore in Hc. rewrite Hin in Hc. cbn [orb] in Hc.
    destruct t as [|c' t]; [reflexivity|].
    cbn [no_double_underscore] in Hnd. apply andb_prop in Hnd as [Hpair _].
    rewrite Hc in Hpair. cbn [andb] in Hpair. apply negb_true_iff in Hpair.
    cbn [all_chars] in Hall. apply andb_prop in Hall as [Hc' Hall].
    unfold class_or_underscore in Hc'. rewrite Hpair, orb_false_r in Hc'.
    rewrite (one_pass_true_class_head c' t Hc'). apply IH; [|exact Hnd'].
    cbn [all_chars]. unfold class_or_underscore at 1. now rewrite Hc', Hall.
Qed.

Lemma one_pass_class b t : all_chars in_class t = true -> one_pass b t = t.
Proof.
  revert b. induction t as [|c t IH]; intros b H; [reflexivity|].
  cbn [all_chars] in H. apply andb_prop in H as [Hc H].
  cbn [one_pass]. rewrite Hc. now rewrite IH.
Qed.

Lemma one_pass_append b s t :
  all_chars in_class t = true -> one_pass b (s +:+ t) = one_pass b s +:+ t.
Proof.
  intros Ht. revert b. induction s as [|c s IH]; intros b.
  - now apply one_pass_class.
  - rewrite append_cons. cbn [one_pass]. destruct (in_class c).
    + rewrite append_cons. now rewrite IH.
    + destruct b; [apply IH|]. rewrite append_cons. now rewrite IH.
Qed.

Lemma one_pass_length b s : (String.length (one_pass b s) <= String.length s)%nat.
Proof.
  revert b. induction s as [|c s IH]; intros b; [reflexivity|].
  cbn [one_pass]. destruct (in_class c).
  - cbn [String.length]. specialize (IH false). lia.
  - destruct b.
    + cbn [String.length]. specialize (IH true). lia.
    + cbn [String.length]. specialize (IH true). lia.
Qed.

End MoreNaming.

(** X1.  Sanitizing is idempotent: a name that has been through the two
    replacements of [filename] comes out of them unchanged. *)
Theorem sanitize_idempotent (s : string) :
  Naming.sanitize (Naming.sanitize s) = Naming.sanitize s.
Proof.
  rewrite (sanitize_one_pass (Naming.sanitize s)). apply one_pass_fixed.
  - rewrite sanitize_one_pass. apply one_pass_chars.
  - rewrite sanitize_one_pass. apply one_pass_no_double.
Qed.

(** X2.  A name made only of letters, digits, dots and hyphens is kept as
    it is, and no name gets longer by sanitizing. *)
Theorem sanitize_keeps_clean_names (s : string) :
  (Naming.all_chars Naming.in_class s = true -> Naming.sanitize s = s)
  /\ (String.length (Naming.sanitize s) <= String.length s)%nat.
Proof.
  split.
  - intros H. rewrite sanitize_one_pass. now apply one_pass_class.
  - rewrite sanitize_one_pass. apply one_pass_length.
Qed.

Lemma sanitize_keeps_clean_names_witness :
  Naming.all_chars Naming.in_class "Pliego-2024.v2.pdf" = true
  /\ Naming.sanitize "Pliego-2024.v2.pdf" = "Pliego-2024.v2.pdf".
Proof.
  split; [reflexivity|].
  apply (proj1 (sanitize_keeps_clean_names "Pliego-2024.v2.pdf")). reflexivity.
Defined.

(** X3.  The staged name keeps the end of the original name: a suffix made
    of letters, digits, dots and hyphens, such as the extension [.pdf],
    ends the generated name unchanged. *)
Theorem filename_keeps_suffix (timestamp : Z) (random36 stem suffix : string) :
  Naming.all_chars Naming.in_class suffix = true ->
  Naming.filename timestamp random36 (stem +:+ suffix)
  = Naming.filename timestamp random36 stem +:+ suffix.
Proof.
  intros H. unfold Naming.filename. rewrite !sanitize_one_pass.
  rewrite one_pass_append by exact H. now rewrite !append_assoc.
Qed.

Lemma filename_keeps_suffix_witness :
  Naming.filename 1700000000000 "0.4fzyo82mvyr" ("mi oferta (final)" +:+ ".pdf")
  = Naming.filename 1700000000000 "0.4fzyo82mvyr" "mi oferta (final)" +:+ ".pdf".
Proof. apply filename_keeps_suffix. reflexivity. Defined.

(** X4.  Two uploads with the same original name get different staged
    names as soon as they differ in the random token at the same
    millisecond, or in the millisecond with the same token. *)
Theorem filename_tells_uploads_apart (t1 t2 : Z) (r1 r2 originalname : string) :
  Naming.filename t1 r1 originalname = Naming.filename t2 r2 originalname ->
  (t1 = t2 -> Js.substring_from 7 r1 = Js.substring_from 7 r2)
  /\ (Js.substring_from 7 r1 = Js.substring_from 7 r2 -> t1 = t2).
Proof.
  unfold Naming.filename. intros H. split.
  - intros ->. apply append_inj_l, append_inj_l in H.
    now apply append_inj_r in H.
  - intros Hr. rewrite Hr in H. apply append_inj_r in H.
    now apply (inj pretty).
Qed.

Lemma filename_tells_uploads_apart_witness :
  Naming.filename 1700000000000 "0.4fzyo82mvyr" "a.pdf"
  <> Naming.filename 1700000000000 "0.4fzyo91kqws" "a.pdf".
Proof.
  intros H.
  destruct (filename_tells_uploads_apart 1700000000000 1700000000000
              "0.4fzyo82mvyr" "0.4fzyo91kqws" "a.pdf" H) as [Htok _].
  specialize (Htok eq_refl). vm_compute in Htok. discriminate.
Defined.

(** X5.  The random token is what is left of the base-36 rendering after
    its first seven characters, so a rendering of at most seven characters
    (0.5 renders as [0.i], 0.25 as [0.9]) gives an empty token: two such uploads of one
    name in one millisecond get the same staged name. *)
Theorem short_random_gives_same_name (timestamp : Z) (r1 r2 originalname : string) :
  (String.length r1 <= 7)%nat -> (String.length r2 <= 7)%nat ->
  Naming.filename timestamp r1 originalname = Naming.filename timestamp r2 originalname
  /\ Naming.filename timestamp r1 originalname
     = pretty timestamp +:+ "--" +:+ Naming.sanitize originalname.
Proof.
  intros H1 H2. unfold Naming.filename.
  rewrite !substring_from_short by assumption. split; reflexivity.
Qed.

Lemma short_random_gives_same_name_witness :
  Naming.filename 1700000000000 "0.i" "a.pdf" = Naming.filename 1700000000000 "0.9" "a.pdf".
Proof.
  apply (short_random_gives_same_name 1700000000000 "0.i" "0.9" "a.pdf"); cbn; lia.
Defined.

(** ** Start-up *)


(** A regular file at the staging path: start-up runs and makes no
    directory. *)
Example startup_over_a_file :
  startup Samples.env0 (Samples.holding "./uploads")
  = (Running Samples.cfg0, Samples.holding "./uploads").
Proof. vm_compute. reflexivity. Qed.

(** ** GET /stats *)

Section StatsFacts.
Import StatsRoute.

Variable cfg : Config.

Lemma strip_prefix_Some p : forall k s, strip_prefix p k = Some s -> k = p +:+ s.
Proof.
  induction p as [|c p IH]; intros k s H.
  - cbn in H. now injection H as ->.
  - destruct k as [|d k]; [discriminate|]. cbn [strip_prefix] in H.
    destruct (Ascii.eqb_spec c d) as [->|]; [|discriminate].
    rewrite append_cons. f_equal. now apply IH.
Qed.

(** A listed name is the name of an entry. *)
Lemma entries_sound dir (d : gmap string Entry) name :
  name ∈ entries dir d -> exists e, d !! path_join dir name = Some e.
Proof.
  unfold entries. intros H. apply list_elem_of_filter in H as [_ H].
  apply list_elem_of_omap in H as [[k e] [Hin Hk]].
  cbn [fst] in Hk. apply strip_prefix_Some in Hk. subst k.
  apply elem_of_map_to_list in Hin. exists e. now rewrite path_join_assoc.
Qed.

(** A listed name is not empty and holds no separator. *)
Lemma entries_are_names dir (d : gmap string Entry) name :
  name ∈ entries dir d -> is_entry_name name = true.
Proof. unfold entries. intros H. now apply list_elem_of_filter in H as [H _]. Qed.

Lemma run_reduce_sizes_ok dir files : forall sum w,
  exists total, run (reduce_sizes dir files sum) w = (Ok total, w).
Proof.
  induction files as [|f files IH]; intros sum w; [now exists sum|].
  unfold run in *. cbn [reduce_sizes]. unfold bind at 1, try_catch, bind, fs_statSync.
  destruct (disk w !! path_join dir f); apply IH.
Qed.

(** Over names read from the disk, the reduction adds up their sizes. *)
Lemma run_reduce_sizes dir (L : list (string * Entry)) w : forall sum,
  (forall k e, (k, e) ∈ L -> disk w !! k = Some e) ->
  run (reduce_sizes dir
         (filter (fun name => is_entry_name name = true)
            (omap (fun kv => strip_prefix (dir +:+ "/") (fst kv)) L)) sum) w
  = (Ok (sum + foldr (fun kv acc =>
                        match strip_prefix (dir +:+ "/") (fst kv) with
                        | Some name =>
                            if is_entry_name name then (size (snd kv) + acc)%Z else acc
                        | None => acc
                        end) 0%Z L)%Z, w).
Proof.
  induction L as [|[k e] L IH]; intros sum HL.
  - cbn. now rewrite Z.add_0_r.
  - cbn [omap list_omap foldr fst snd].
    assert (HL' : forall k0 e0, (k0, e0) ∈ L -> disk w !! k0 = Some e0).
    { intros k0 e0 Hin. apply HL. now apply list_elem_of_further. }
    destruct (strip_prefix (dir +:+ "/") k) as [name|] eqn:Hk; [|now apply IH].
    destruct (is_entry_name name) eqn:Hname.
    + rewrite filter_cons_True by exact Hname.
      unfold run in *. cbn [reduce_sizes].
      unfold bind at 1, try_catch, bind, fs_statSync.
      apply strip_prefix_Some in Hk. rewrite path_join_assoc, <- Hk.
      rewrite (HL k e) by apply list_elem_of_here. unfold ret at 1.
      rewrite IH by exact HL'. f_equal. f_equal. lia.
    + rewrite filter_cons_False by (rewrite Hname; discriminate).
      now apply IH.
Qed.

Lemma substring_to_length n : forall s, (String.length (substring_to n s) <= n)%nat.
Proof.
  induction n as [|n IH]; intros [|c s]; cbn; try lia.
  specialize (IH s). lia.
Qed.

Lemma substring_to_short n : forall s, (String.length s <= n)%nat -> substring_to n s = s.
Proof.
  induction n as [|n IH]; intros [|c s] H; cbn in *; try reflexivity; try lia.
  f_equal. apply IH. lia.
Qed.

End StatsFacts.

(** X7.  On a running process (the webhook URL is set and the staging
    directory exists) the stats route answers 200 without changing the
    state: [filesWaiting] is the number of entries of the staging directory
    itself, sub-directories counting as one entry each and what they hold
    not at all; [totalSizeMB] is ["0"] when there is no entry and otherwise
    the sum of the sizes of those entries divided by 1024 twice, with two
    decimals; the other fields come from the configuration. *)
Theorem stats_reports_staging (cfg : Config) (NODE_ENV : option string) (w : World)
    (u : string) (e : Entry) :
  N8N_WEBHOOK_URL cfg = Some u ->
  disk w !! TEMP_DIR cfg = Some e -> kind e = Directory ->
  run (StatsRoute.stats cfg NODE_ENV) w
  = (Ok {| StatsRoute.stats_status := 200;
           StatsRoute.stats_body :=
             StatsRoute.Report
               {| StatsRoute.filesWaiting := length (entries (TEMP_DIR cfg) (disk w));
                  StatsRoute.tempDir := TEMP_DIR cfg;
                  StatsRoute.maxFileSize := limit_label cfg;
                  StatsRoute.n8nWebhook := StatsRoute.substring_to 50 u +:+ "...";
                  StatsRoute.environment := Js.or_else NODE_ENV "development";
                  StatsRoute.totalSizeMB :=
                    match entries (TEMP_DIR cfg) (disk w) with
                    | [] => "0"
                    | _ => Js.toFixed2 (sizes_under (TEMP_DIR cfg) (disk w)) (1024 * 1024)
                    end |} |}, w).
Proof.
  intros Hurl Hdir Hkind.
  unfold run, StatsRoute.stats, try_catch.
  unfold bind at 1. unfold StatsRoute.fs_readdirSync. rewrite Hdir, Hkind.
  unfold bind at 1. rewrite Hurl. unfold ret at 1.
  unfold bind at 1.
  destruct (entries (TEMP_DIR cfg) (disk w)) as [|n0 names] eqn:Hent; [reflexivity|].
  replace (0 <? length (n0 :: names))%nat with true by reflexivity.
  unfold bind at 1. rewrite <- Hent. unfold entries.
  pose proof (run_reduce_sizes (TEMP_DIR cfg) (map_to_list (disk w)) w 0) as Hsum.
  unfold run in Hsum. rewrite Hsum.
  - reflexivity.
  - intros k e0 Hin. now apply elem_of_map_to_list.
Qed.

Lemma stats_reports_staging_witness :
  run (StatsRoute.stats Samples.cfg0 None) Fixtures.running
  = (Ok {| StatsRoute.stats_status := 200;
           StatsRoute.stats_body :=
             StatsRoute.Report
               {| StatsRoute.filesWaiting := 2;
                  StatsRoute.tempDir := "./uploads";
                  StatsRoute.maxFileSize := "80MB";
                  StatsRoute.n8nWebhook := "http://n8n.local/webhook/licitaciones...";
                  StatsRoute.environment := "development";
                  StatsRoute.totalSizeMB := "2.00" |} |}, Fixtures.running).
Proof.
  rewrite (stats_reports_staging Samples.cfg0 None Fixtures.running
             "http://n8n.local/webhook/licitaciones" (Samples.folder 1699999000000)
             eq_refl eq_refl eq_refl).
  vm_compute. reflexivity.
Defined.

(** A file inside a sub-directory is not counted: the sub-directory is the
    one entry, and its own size is what is added up. *)
Example stats_nested :
  run (StatsRoute.stats Samples.cfg0 None) Fixtures.nested
  = (Ok {| StatsRoute.stats_status := 200;
           StatsRoute.stats_body :=
             StatsRoute.Report
               {| StatsRoute.filesWaiting := 1;
                  StatsRoute.tempDir := "./uploads";
                  StatsRoute.maxFileSize := "80MB";
                  StatsRoute.n8nWebhook := "http://n8n.local/webhook/licitaciones...";
                  StatsRoute.environment := "development";
                  StatsRoute.totalSizeMB := "0.00" |} |}, Fixtures.nested).
Proof. vm_compute. reflexivity. Qed.


(** X9.  The stats route never shows more of the webhook URL than its
    first 50 characters followed by three dots: the reported string has at
    most 53 characters, and a URL of at most 50 characters is shown whole. *)
Theorem stats_redacts_webhook (cfg : Config) (NODE_ENV : option string) (w : World)
    (resp : StatsRoute.StatsResponse) (st : StatsRoute.Stats) :
  run (StatsRoute.stats cfg NODE_ENV) w = (Ok resp, w) ->
  StatsRoute.stats_body resp = StatsRoute.Report st ->
  exists u,
    N8N_WEBHOOK_URL cfg = Some u
    /\ StatsRoute.n8nWebhook st = StatsRoute.substring_to 50 u +:+ "..."
    /\ (String.length (StatsRoute.n8nWebhook st) <= 53)%nat
    /\ ((String.length u <= 50)%nat -> StatsRoute.n8nWebhook st = u +:+ "...").
Proof.
  unfold run, StatsRoute.stats, try_catch.
  unfold bind at 1. unfold StatsRoute.fs_readdirSync.
  destruct (disk w !! TEMP_DIR cfg) as [e|]; [|intros [= <-]; discriminate].
  destruct (kind e); [intros [= <-]; discriminate|].
  unfold bind at 1. destruct (N8N_WEBHOOK_URL cfg) as [u|]; [|intros [= <-]; discriminate].
  unfold ret at 1. unfold bind at 1.
  pose proof (substring_to_length 50 u) as Hlen.
  pose proof (substring_to_short 50 u) as Hshort.
  set (shown := StatsRoute.substring_to 50 u) in *.
  assert (Hfacts : forall total,
             StatsRoute.Report
               {| StatsRoute.filesWaiting := length (entries (TEMP_DIR cfg) (disk w));
                  StatsRoute.tempDir := TEMP_DIR cfg;
                  StatsRoute.maxFileSize := limit_label cfg;
                  StatsRoute.n8nWebhook := shown +:+ "...";
                  StatsRoute.environment := Js.or_else NODE_ENV "development";
                  StatsRoute.totalSizeMB := total |} = StatsRoute.Report st ->
             exists u0,
               Some u = Some u0
               /\ StatsRoute.n8nWebhook st = StatsRoute.substring_to 50 u0 +:+ "..."
               /\ (String.length (StatsRoute.n8nWebhook st) <= 53)%nat
               /\ ((String.length u0 <= 50)%nat -> StatsRoute.n8nWebhook st = u0 +:+ "...")).
  { intros total Hst. injection Hst as <-. exists u.
    change (StatsRoute.n8nWebhook _) with (shown +:+ "...").
    split; [reflexivity|]. split; [reflexivity|]. split.
    - rewrite length_append. change (String.length "...") with 3%nat. lia.
    - intros Hu. now rewrite Hshort. }
  destruct (0 <? length (entries (TEMP_DIR cfg) (disk w)))%nat.
  - unfold bind at 1.
    destruct (run_reduce_sizes_ok (TEMP_DIR cfg) (entries (TEMP_DIR cfg) (disk w)) 0 w)
      as [total Htotal].
    unfold run in Htotal. rewrite Htotal. unfold ret.
    intros Hrun. injection Hrun as <-. apply Hfacts.
  - unfold ret. intros Hrun. injection Hrun as <-. apply Hfacts.
Qed.

Lemma stats_redacts_webhook_witness :
  exists st,
    StatsRoute.stats_body (match fst (run (StatsRoute.stats
        {| PORT := "3000";
           N8N_WEBHOOK_URL := Some "https://n8n.intelec.example/webhook/0123456789abcdef0123456789abcdef-secret";
           MAX_FILE_SIZE := 83886080; TEMP_DIR := "./uploads"; limit_label := "80MB" |}
        None) Fixtures.running) with
      | Ok r => r
      | Throw _ => {| StatsRoute.stats_status := 0; StatsRoute.stats_body := StatsRoute.ReadError "" |}
      end) = StatsRoute.Report st
    /\ StatsRoute.n8nWebhook st = "https://n8n.intelec.example/webhook/0123456789abcd...".
Proof.
  eexists. split; [vm_compute; reflexivity|].
  destruct (stats_redacts_webhook
              {| PORT := "3000";
                 N8N_WEBHOOK_URL := Some "https://n8n.intelec.example/webhook/0123456789abcdef0123456789abcdef-secret";
                 MAX_FILE_SIZE := 83886080; TEMP_DIR := "./uploads"; limit_label := "80MB" |}
              None Fixtures.running _ _ ltac:(vm_compute; reflexivity) eq_refl)
    as [u [Hu [Hshown _]]].
  injection Hu as <-. rewrite Hshown. vm_compute. reflexivity.
Defined.

(** ** More on the cleanup timer *)

(** X10.  A firing of the cleanup timer returns normally and removes
    nothing but regular files of the staging directory whose modification
    time lies more than 30 minutes back: every other path, inside or outside
    the directory, reads as before, and the clock and the log of posts are
    untouched. *)
Theorem sweep_removes_only_expired (cfg : Config) (w : World) :
  exists w',
    run (sweep cfg) w = (Ok tt, w')
    /\ sent w' = sent w /\ clock w' = clock w
    /\ forall p,
        disk w' !! p = disk w !! p
        \/ (disk w' !! p = None
            /\ exists name e,
                p = path_join (TEMP_DIR cfg) name
                /\ disk w !! p = Some e
                /\ kind e = RegularFile
                /\ (30 * 60 * 1000 < clock w - mtimeMs e)%Z).
Proof.
  rewrite run_sweep, run_sweep_listing. eexists. split; [reflexivity|].
  split; [reflexivity|]. split; [reflexivity|].
  intros p. cbn [disk set_disk]. rewrite lookup_drop_all.
  destruct (disk w !! p) as [e|] eqn:Hp; [|now left].
  destruct (expired (clock w) e) eqn:Hold; [|now left].
  destruct (is_regular e) eqn:Hreg; [|now left].
  destruct (decide (p ∈ map (path_join (TEMP_DIR cfg)) (entries (TEMP_DIR cfg) (disk w))))
    as [Hin|Hout].
  - right. rewrite bool_decide_eq_true_2 by exact Hin. split; [reflexivity|].
    apply list_elem_of_fmap in Hin as [name [-> _]]. exists name, e.
    split; [reflexivity|]. split; [reflexivity|]. split.
    + unfold is_regular in Hreg. now destruct (kind e).
    + unfold expired in Hold. now apply Z.ltb_lt in Hold.
  - left. now rewrite bool_decide_eq_false_2 by exact Hout.
Qed.

(** X11.  Right after a firing of the cleanup timer, a second firing at
    the same instant finds nothing to remove: it leaves the state exactly as
    the first one left it. *)
Theorem sweep_twice (cfg : Config) (w : World) :
  run (sweep cfg) (snd (run (sweep cfg) w)) = (Ok tt, snd (run (sweep cfg) w)).
Proof.
  rewrite (run_sweep cfg w), run_sweep_listing. cbn [snd].
  set (d1 := foldl _ _ _). rewrite run_sweep, run_sweep_listing.
  cbn [disk clock set_disk]. f_equal.
  assert (Hsame : foldl (drop_if (expired (clock w))) d1
                    (map (path_join (TEMP_DIR cfg)) (entries (TEMP_DIR cfg) d1)) = d1).
  { apply map_eq. intros p. rewrite lookup_drop_all.
    destruct (d1 !! p) as [e|] eqn:Hp; [|reflexivity].
    destruct (expired (clock w) e && is_regular e) eqn:Hc; [|reflexivity].
    cbn [andb]. rewrite bool_decide_eq_false_2; [reflexivity|].
    intros Hin. apply list_elem_of_fmap in Hin as [name [-> Hname]].
    unfold d1 in Hp. rewrite lookup_drop_all in Hp.
    destruct (disk w !! path_join (TEMP_DIR cfg) name) as [e0|] eqn:H0; [|discriminate].
    assert (Hlisted : path_join (TEMP_DIR cfg) name
                      ∈ map (path_join (TEMP_DIR cfg)) (entries (TEMP_DIR cfg) (disk w))).
    { apply list_elem_of_fmap. exists name. split; [reflexivity|].
      apply entries_listed with e0; [|exact H0].
      now apply entries_are_names in Hname. }
    rewrite (bool_decide_eq_true_2 _ Hlisted), andb_true_r in Hp.
    destruct (expired (clock w) e0 && is_regular e0) eqn:Hc0; [discriminate|].
    injection Hp as <-. congruence. }
  rewrite Hsame. destruct w as [d c s n l]. reflexivity.
Qed.

(** ** More on the upload middleware *)

Section MoreMulter.

Variable cfg : Config.
Variable ext : External.

Lemma receive_skips_unnamed name parts : forall filesLeft uploaded w,
  Forall (fun u => up_originalname u = "") parts ->
  run (receive cfg ext name filesLeft uploaded parts) w = (Ok uploaded, w).
Proof.
  induction parts as [|u rest IH]; intros filesLeft uploaded w H; [reflexivity|].
  apply Forall_cons in H as [Hu Hrest]. cbn [receive]. rewrite Hu.
  replace (String.eqb "" "") with true by reflexivity. now apply IH.
Qed.

(** One valid part more than [maxCount] allows stops the upload. *)
Lemma receive_over_count name parts : forall k uploaded w,
  Forall (fun u => valid_pdf cfg ext name u = true) parts ->
  (k < length parts)%nat ->
  exists w',
    run (receive cfg ext name (Some k) uploaded parts) w
    = (Throw (MulterError LIMIT_UNEXPECTED_FILE name), w').
Proof.
  induction parts as [|u rest IH]; intros k uploaded w Hall Hk; [cbn in Hk; lia|].
  apply Forall_cons in Hall as [Hu Hrest].
  destruct (valid_pdf_inv cfg ext name u Hu) as [Hname [Hfield [Hfilter Hsize]]].
  cbn [receive]. rewrite Hname, Hfield. apply String.eqb_eq in Hfield.
  destruct k as [|k]; cbn [has_left andb negb].
  - eexists. rewrite Hfield. apply run_abort.
  - rewrite Hfilter. unfold run, bind.
    pose proof (run_handle_file cfg ext u w) as Hstore. unfold run in Hstore.
    rewrite Hstore, Hsize. cbn [take_one Nat.pred].
    apply IH; [exact Hrest|]. cbn in Hk. lia.
Qed.

Lemma stored_as_handed_over name u w :
  String.eqb (up_originalname u) "" = false ->
  String.eqb (up_fieldname u) name = true ->
  fileFilter u = None ->
  handed_over cfg name (stored_as cfg ext u w).
Proof.
  intros Hname Hfield Hfilter. unfold handed_over, stored_as.
  cbn [fieldname originalname mimetype destination path filename fsize].
  split; [now apply String.eqb_eq|]. split; [now apply String.eqb_neq|]. split.
  { unfold fileFilter in Hfilter.
    destruct (String.eqb_spec (up_mimetype u) "application/pdf"); [assumption|discriminate]. }
  split; [reflexivity|]. split; [reflexivity|]. split; [eauto|]. lia.
Qed.

(** What reaches the handler: every file passed the checks, and there are
    never more files than parts, nor more than [maxCount]. *)
Lemma receive_hands_over name parts : forall filesLeft uploaded w stored w',
  Forall (handed_over cfg name) uploaded ->
  run (receive cfg ext name filesLeft uploaded parts) w = (Ok stored, w') ->
  Forall (handed_over cfg name) stored
  /\ (length stored <= length uploaded + length parts)%nat
  /\ (forall k, filesLeft = Some k -> length stored <= length uploaded + k)%nat.
Proof.
  induction parts as [|u rest IH]; intros filesLeft uploaded w stored w' Hup Hrun.
  - unfold run in Hrun. cbn in Hrun. injection Hrun as <- <-.
    split; [exact Hup|]. split; [cbn; lia|]. intros k _. lia.
  - unfold run in Hrun. cbn [receive] in Hrun.
    destruct (String.eqb (up_originalname u) "") eqn:Hname.
    { destruct (IH _ _ _ _ _ Hup Hrun) as [H1 [H2 H3]].
      split; [exact H1|]. split; [cbn; lia|exact H3]. }
    destruct (String.eqb (up_fieldname u) name) eqn:Hfield; cbn [andb negb] in Hrun.
    2: { pose proof (run_abort (A := list File) uploaded
                       (MulterError LIMIT_UNEXPECTED_FILE (up_fieldname u)) w) as Hab.
         unfold run in Hab. rewrite Hab in Hrun. discriminate. }
    destruct (has_left filesLeft) eqn:Hleft; cbn [negb] in Hrun.
    2: { pose proof (run_abort (A := list File) uploaded
                       (MulterError LIMIT_UNEXPECTED_FILE (up_fieldname u)) w) as Hab.
         unfold run in Hab. rewrite Hab in Hrun. discriminate. }
    destruct (fileFilter u) as [err|] eqn:Hfilter.
    { pose proof (run_abort (A := list File) uploaded err w) as Hab.
      unfold run in Hab. rewrite Hab in Hrun. discriminate. }
    unfold bind in Hrun. pose proof (run_handle_file cfg ext u w) as Hstore.
    unfold run in Hstore. rewrite Hstore in Hrun.
    destruct (over_limit cfg ext (up_size u)).
    { pose proof (fun w0 => run_abort (A := list File) (uploaded ++ [stored_as cfg ext u w])
                       (MulterError LIMIT_FILE_SIZE (up_fieldname u)) w0) as Hab.
      unfold run in Hab. rewrite Hab in Hrun. discriminate. }
    assert (Hup' : Forall (handed_over cfg name) (uploaded ++ [stored_as cfg ext u w])).
    { apply Forall_app. split; [exact Hup|]. apply Forall_singleton.
      now apply stored_as_handed_over. }
    destruct (IH _ _ _ _ _ Hup' Hrun) as [H1 [H2 H3]].
    rewrite length_app in H2, H3. cbn [length] in H2, H3.
    split; [exact H1|]. split; [cbn; lia|].
    intros k ->. destruct k as [|k]; [discriminate|].
    specialize (H3 k eq_refl). lia.
Qed.

End MoreMulter.

(** X12.  When the upload middleware hands a request to the handler,
    [req.file] is unset and every file of [req.files] came under the
    expected field with a file name and the PDF content type, lies in the
    staging directory under its generated name, holds at most the size
    limit, and is on the disk as a regular file.  There are never more files
    than the request had parts, nor more than [maxCount], and nothing has
    been posted. *)
Theorem upload_array_hands_over (cfg : Config) (ext : External) (name : string)
    (maxCount : option nat) (rq : Incoming) (w : World) (req : Request) (w' : World) :
  run (upload_array cfg ext name maxCount rq) w = (Ok req, w') ->
  req_file req = None
  /\ sent w' = sent w
  /\ exists files,
      req_files req = Some files
      /\ Forall (handed_over cfg name) files
      /\ all_staged files w'
      /\ (length files <= length (in_files rq))%nat
      /\ (forall k, maxCount = Some k -> length files <= k)%nat.
Proof.
  intros Hrun.
  destruct (receive_inv cfg ext name (in_files rq) maxCount [] w)
    as [r [w1 [Hrec [Hs [_ Hres]]]]].
  { intros f Hf. now apply not_elem_of_nil in Hf. }
  rewrite (run_upload_array cfg ext name maxCount rq w r w1 Hrec) in Hrun.
  destruct r as [stored|e]; [|discriminate]. injection Hrun as <- <-.
  destruct Hres as [_ [Hall _]].
  destruct (receive_hands_over cfg ext name (in_files rq) maxCount [] w stored w1
              (List.Forall_nil _) Hrec) as [H1 [H2 H3]].
  cbn [req_file req_files]. split; [reflexivity|].
  split; [exact Hs|]. exists stored. split; [reflexivity|]. split; [exact H1|].
  split; [exact Hall|]. split; [exact H2|]. intros k Hk. now apply (H3 k).
Qed.

Lemma upload_array_hands_over_witness :
  exists req w',
    run (upload_array Samples.cfg0 (Samples.answers 200) "files" (Some 10%nat)
           (Samples.request [Samples.pdf "files" "pliego tecnico.pdf" 2097152;
                             Samples.pdf "files" "anexo.pdf" 1000])) Samples.w0
    = (Ok req, w')
    /\ req_file req = None
    /\ exists files, req_files req = Some files /\ (length files <= 2)%nat.
Proof.
  eexists. eexists. split; [vm_compute; reflexivity|].
  destruct (upload_array_hands_over Samples.cfg0 (Samples.answers 200) "files" (Some 10%nat)
              (Samples.request [Samples.pdf "files" "pliego tecnico.pdf" 2097152;
                                Samples.pdf "files" "anexo.pdf" 1000]) Samples.w0 _ _
              ltac:(vm_compute; reflexivity))
    as [Hfile [_ [files [Hfiles [_ [_ [Hlen _]]]]]]].
  split; [exact Hfile|]. exists files. split; [exact Hfiles|exact Hlen].
Defined.

(** ** More on the batch route *)

Section MoreBatch.

Variable cfg : Config.
Variable ext : External.



End MoreBatch.

(** X13.  Whatever the request and whatever the downstream does, the batch
    route answers, posts to the downstream at most once, and leaves no file
    behind: every path of the disk reads as before the request or is
    absent. *)
Theorem batch_route_is_contained (cfg : Config) (ext : External) (rq : Incoming) (w : World) :
  exists resp w',
    run (BatchJs.upload_route cfg ext rq) w = (Ok resp, w')
    /\ (sent w' = sent w \/ exists relay, sent w' = sent w ++ [relay])
    /\ forall p, disk w' !! p = None \/ disk w' !! p = disk w !! p.
Proof.
  destruct (receive_inv cfg ext "files" (in_files rq) (Some 10%nat) [] w)
    as [r [w1 [Hrun [Hs [_ Hres]]]]].
  { intros f Hf. now apply not_elem_of_nil in Hf. }
  pose proof (run_upload_array cfg ext "files" (Some 10%nat) rq w r w1 Hrun) as Hmw.
  unfold BatchJs.upload_route. destruct r as [stored|e].
  - destruct Hres as [_ [Hall Hkeep]].
    rewrite (run_route_ok cfg _ _ _ w w1 Hmw). destruct stored as [|f0 stored].
    + rewrite run_batch_handler_empty by reflexivity.
      eexists. eexists. split; [reflexivity|]. split; [now left|]. intros p. right.
      apply Hkeep. apply not_elem_of_nil.
    + destruct (batch_handler_cleans cfg ext
                  {| req_file := None; req_files := Some (f0 :: stored);
                     req_body := in_fields rq |} (f0 :: stored) w1 eq_refl)
        as [resp [w2 [Hh [Hdisk Hsent]]]]; [discriminate|].
      rewrite Hh. exists resp, w2. split; [reflexivity|].
      rewrite <- Hs. split; [exact Hsent|].
      intros p. rewrite Hdisk, lookup_drop_all.
      destruct (decide (p ∈ map path (f0 :: stored))) as [Hin|Hout].
      * apply list_elem_of_fmap in Hin as [f [-> Hf]].
        destruct (Hall f Hf) as [en [-> Hk]]. unfold is_regular. rewrite Hk.
        rewrite bool_decide_eq_true_2; [now left|].
        apply list_elem_of_fmap. now exists f.
      * right. rewrite (Hkeep p Hout). destruct (disk w !! p) as [en|]; [|reflexivity].
        rewrite (bool_decide_eq_false_2 _ Hout). now rewrite andb_false_r.
  - destruct Hres as [_ Hsub].
    rewrite (run_route_throw cfg _ _ e w w1 Hmw).
    eexists. eexists. split; [reflexivity|]. split; [now left|]. exact Hsub.
Qed.

(** X14.  A batch request without a file, or whose file parts all come
    without a file name, is answered 400, "No files found"; nothing is
    written, nothing is posted and the state is as before. *)
Theorem batch_without_files_is_400 (cfg : Config) (ext : External) (rq : Incoming) (w : World) :
  Forall (fun u => up_originalname u = "") (in_files rq) ->
  run (BatchJs.upload_route cfg ext rq) w
  = (Ok (res_status_json 400 (Failure "No files found")), w).
Proof.
  intros H. unfold BatchJs.upload_route.
  pose proof (receive_skips_unnamed cfg ext "files" (in_files rq) (Some 10%nat) [] w H) as Hrec.
  pose proof (run_upload_array cfg ext "files" (Some 10%nat) rq w _ _ Hrec) as Hmw.
  cbn beta iota in Hmw. rewrite (run_route_ok cfg _ _ _ w w Hmw).
  now apply run_batch_handler_empty.
Qed.

Lemma batch_without_files_is_400_witness :
  run (BatchJs.upload_route Samples.cfg0 (Samples.answers 200)
         (Samples.request [Samples.pdf "files" "" 0])) Samples.w0
  = (Ok (res_status_json 400 (Failure "No files found")), Samples.w0).
Proof.
  apply batch_without_files_is_400. repeat constructor.
Defined.

(** X15.  More than ten valid PDFs in one batch are refused: the eleventh
    makes multer stop with "Unexpected field", the route answers 500 with
    that message, nothing is posted, and the ten files already written are
    removed again. *)
Theorem batch_over_ten_is_refused (cfg : Config) (ext : External) (rq : Incoming) (w : World) :
  (10 < length (in_files rq))%nat ->
  Forall (fun u => valid_pdf cfg ext "files" u = true) (in_files rq) ->
  exists w',
    run (BatchJs.upload_route cfg ext rq) w
    = (Ok (res_status_json 500 (Failure "Unexpected field")), w')
    /\ sent w' = sent w
    /\ forall p, disk w' !! p = None \/ disk w' !! p = disk w !! p.
Proof.
  intros Hlen Hvalid.
  destruct (receive_over_count cfg ext "files" (in_files rq) 10 [] w Hvalid Hlen)
    as [w' Hrec].
  destruct (receive_inv cfg ext "files" (in_files rq) (Some 10%nat) [] w)
    as [r [w1 [Hrec1 [Hs [_ Hres]]]]].
  { intros f Hf. now apply not_elem_of_nil in Hf. }
  rewrite Hrec in Hrec1. injection Hrec1 as <- <-. destruct Hres as [_ Hsub].
  exists w'. split; [|split; [exact Hs|exact Hsub]].
  unfold BatchJs.upload_route.
  rewrite (run_route_throw cfg _ _ (MulterError LIMIT_UNEXPECTED_FILE "files") w w');
    [reflexivity|].
  now rewrite (run_upload_array cfg ext "files" (Some 10%nat) rq w _ _ Hrec).
Qed.

Lemma batch_over_ten_is_refused_witness :
  exists w',
    run (BatchJs.upload_route Samples.cfg0 (Samples.answers 200)
           (Samples.request Fixtures.eleven)) Samples.w0
    = (Ok (res_status_json 500 (Failure "Unexpected field")), w')
    /\ sent w' = [].
Proof.
  destruct (batch_over_ten_is_refused Samples.cfg0 (Samples.answers 200)
              (Samples.request Fixtures.eleven) Samples.w0)
    as [w' [Hrun [Hsent _]]].
  - cbn. lia.
  - repeat constructor.
  - exists w'. split; [exact Hrun|exact Hsent].
Defined.

(** X16.  A file part sent under another field name than the route was
    registered for is refused before anything is written: when it is the
    first part with a file name, either route answers 500, "Unexpected
    field", and the state is as before. *)
Theorem other_field_is_refused (cfg : Config) (ext : External) (fields : gmap string Js.Value)
    (u : Upload) (rest : list Upload) (w : World) :
  up_originalname u <> "" ->
  (up_fieldname u <> "files" ->
   run (BatchJs.upload_route cfg ext {| in_fields := fields; in_files := u :: rest |}) w
   = (Ok (res_status_json 500 (Failure "Unexpected field")), w))
  /\ (up_fieldname u <> "file" ->
      run (ServerJs.upload_route cfg ext {| in_fields := fields; in_files := u :: rest |}) w
      = (Ok (res_status_json 500 (Failure "Unexpected field")), w)).
Proof.
  intros Hname. apply String.eqb_neq in Hname.
  assert (Hgen : forall name maxCount handler,
             up_fieldname u <> name ->
             run (route cfg (upload_array cfg ext name maxCount
                               {| in_fields := fields; in_files := u :: rest |}) handler) w
             = (Ok (res_status_json 500 (Failure "Unexpected field")), w)).
  { intros name maxCount handler Hfield. apply String.eqb_neq in Hfield.
    assert (Hrec : run (receive cfg ext name maxCount [] (u :: rest)) w
                   = (Throw (MulterError LIMIT_UNEXPECTED_FILE (up_fieldname u)), w)).
    { unfold run. cbn [receive]. rewrite Hname, Hfield. cbn [andb negb].
      pose proof (run_abort (A := list File) []
                    (MulterError LIMIT_UNEXPECTED_FILE (up_fieldname u)) w) as Hab.
      unfold run in Hab. cbn [map foldl] in Hab. now rewrite set_disk_same in Hab. }
    rewrite (run_route_throw cfg _ _ (MulterError LIMIT_UNEXPECTED_FILE (up_fieldname u)) w w);
      [reflexivity|].
    now rewrite (run_upload_array cfg ext name maxCount
                   {| in_fields := fields; in_files := u :: rest |} w _ _ Hrec). }
  split; intros Hfield.
  - now apply Hgen.
  - now apply Hgen.
Qed.

Lemma other_field_is_refused_witness :
  run (BatchJs.upload_route Samples.cfg0 (Samples.answers 200)
         (Samples.request [Samples.pdf "file" "oferta.pdf" 2097152])) Samples.w0
  = (Ok (res_status_json 500 (Failure "Unexpected field")), Samples.w0).
Proof.
  apply (other_field_is_refused Samples.cfg0 (Samples.answers 200) ∅
           (Samples.pdf "file" "oferta.pdf" 2097152) [] Samples.w0); discriminate.
Defined.

(** X17.  The metadata the batch handler sends with the files, when the
    files it was given are on the disk and the text fields [batch_id],
    [process_type] and [client_id] are each absent or a plain string: a
    non-empty one is forwarded as it is, an absent or empty one is replaced
    by [batch_<now>], [GG] and [INTELEC_SL]; [uploaded_by] is always
    [backend-api-batch] and [upload_timestamp] is the time of the request in
    ISO form.  On success the response reports the very batch id that was
    sent downstream and the number of files of the request. *)
Theorem batch_metadata (cfg : Config) (ext : External) (req : Request)
    (files : list File) (w : World) :
  req_files req = Some files -> files <> [] ->
  plain_fields batch_fields (req_body req) = true ->
  all_staged files w ->
  exists resp w' relay,
    run (BatchJs.upload_handler cfg ext req) w = (Ok resp, w')
    /\ sent w' = sent w ++ [relay]
    /\ field_value "batch_id" (form relay)
       = Some (or_text (req_body req !! "batch_id") ("batch_" +:+ pretty (clock w)))
    /\ field_value "process_type" (form relay)
       = Some (or_text (req_body req !! "process_type") "GG")
    /\ field_value "client_id" (form relay)
       = Some (or_text (req_body req !! "client_id") "INTELEC_SL")
    /\ field_value "uploaded_by" (form relay) = Some "backend-api-batch"
    /\ field_value "upload_timestamp" (form relay) = Some (JsDate.toISOString (clock w))
    /\ (forall b n t d,
          body resp = BatchUploaded b n t d ->
          field_value "batch_id" (form relay) = Some b /\ n = length files).
Proof.
  intros Hfiles Hne Hplain Hst.
  destruct (run_batch_handler_posted cfg ext req files w Hfiles Hne Hplain Hst)
    as [fd [Hfd Hh]].
  cbn zeta in Hh. rewrite Hh.
  assert (Hvals :
    field_value "batch_id" fd
    = Some (or_text (req_body req !! "batch_id") ("batch_" +:+ pretty (clock w)))
    /\ field_value "process_type" fd = Some (or_text (req_body req !! "process_type") "GG")
    /\ field_value "client_id" fd = Some (or_text (req_body req !! "client_id") "INTELEC_SL")
    /\ field_value "uploaded_by" fd = Some "backend-api-batch"
    /\ field_value "upload_timestamp" fd = Some (JsDate.toISOString (clock w))).
  { rewrite (batch_build_form_inv _ _ _ _ _ Hfd), !field_value_after_files.
    repeat split; reflexivity. }
  destruct Hvals as [Hv1 [Hv2 [Hv3 [Hv4 Hv5]]]].
  eexists. eexists. eexists. split; [reflexivity|].
  cbn [sent set_disk tick logged]. split; [reflexivity|]. cbn [form].
  split; [exact Hv1|]. split; [exact Hv2|]. split; [exact Hv3|].
  split; [exact Hv4|]. split; [exact Hv5|]. rewrite Hv1.
  intros b n t d Hbody.
  destruct (delivered _ 600000 _) as [[st d0]|]; [|discriminate].
  destruct (Js.in_range 200 300 st); [|discriminate].
  cbn in Hbody. injection Hbody as <- <- _ _. split; reflexivity.
Qed.

Lemma batch_metadata_witness :
  exists resp w' relay,
    run (BatchJs.upload_handler Samples.cfg0 (Samples.answers 200)
           {| req_file := None;
              req_files := Some [Samples.staged "./uploads/1-x-a.pdf" "a.pdf" 10];
              req_body := <["client_id" := Js.VString "ACME"]>
                          (<["process_type" := Js.VString ""]> ∅) |})
      (Samples.holding "./uploads/1-x-a.pdf") = (Ok resp, w')
    /\ sent w' = [relay]
    /\ field_value "client_id" (form relay) = Some "ACME"
    /\ field_value "process_type" (form relay) = Some "GG"
    /\ field_value "batch_id" (form relay) = Some "batch_1700000000000".
Proof.
  destruct (batch_metadata Samples.cfg0 (Samples.answers 200)
              {| req_file := None;
                 req_files := Some [Samples.staged "./uploads/1-x-a.pdf" "a.pdf" 10];
                 req_body := <["client_id" := Js.VString "ACME"]>
                             (<["process_type" := Js.VString ""]> ∅) |}
              [Samples.staged "./uploads/1-x-a.pdf" "a.pdf" 10]
              (Samples.holding "./uploads/1-x-a.pdf")
              eq_refl ltac:(discriminate) eq_refl)
    as [resp [w' [relay [Hrun [Hsent [Hb [Hp [Hc _]]]]]]]].
  - intros f Hf. apply list_elem_of_singleton in Hf. subst f.
    exists (Samples.regular 1700000000000). split; reflexivity.
  - exists resp, w', relay. split; [exact Hrun|]. split; [exact Hsent|].
    split; [exact Hc|]. split; [exact Hp|exact Hb].
Defined.



(** ** More on the single-file handler *)

(** X19.  The handler of [server.js], given a request whose [req.file] is
    set, whose form can be built (no [append] throws) and whose staged file
    is on the disk as a regular file, on a 2xx answer handed over by axios
    responds 200 with the original name, the size in bytes, the size in MB
    and a job id that is never empty: the downstream's [jobId] when it sent
    a non-empty one, otherwise [job_] followed by the time of the
    response. *)
Theorem single_handler_job_id (cfg : Config) (ext : External) (req : Request)
    (file : File) (w : World) (fd : list Part) (e : Entry) (st : Z) (d : Data) :
  req_file req = Some file -> path file <> "" ->
  ServerJs.build_form req file = Ok fd ->
  disk w !! path file = Some e -> kind e = RegularFile ->
  delivered (max_redirects ext) 120000
    (downstream ext {| url := N8N_WEBHOOK_URL cfg; form := fd; timeout := 120000 |})
  = Some (st, d) ->
  Js.in_range 200 300 st = true ->
  exists w' t j,
    run (ServerJs.upload_handler cfg ext req) w
    = (Ok (res_json (Uploaded (originalname file) (fsize file)
                       (Js.toFixed2 (fsize file) (1024 * 1024)) t j)), w')
    /\ sent w' = sent w ++ [ {| url := N8N_WEBHOOK_URL cfg; form := fd; timeout := 120000 |} ]
    /\ j <> ""
    /\ (forall v, jobId d = Some v -> v <> "" -> j = v)
    /\ (Js.truthy (jobId d) = false -> j = "job_" +:+ pretty (clock w')).
Proof.
  intros Hfile Hpath Hfd He Hk Hd H2xx.
  rewrite (run_single_handler cfg ext req file w Hfile Hpath). cbn zeta.
  rewrite Hfd, (single_form_readable _ _ _ _ _ Hfd He Hk).
  rewrite Hd, H2xx. eexists. eexists. eexists. split; [reflexivity|].
  cbn [clock sent set_disk tick logged]. split; [reflexivity|].
  unfold Js.or_else, Js.truthy.
  destruct (jobId d) as [v|].
  - destruct (String.eqb_spec v "") as [->|Hv]; cbn [negb].
    + split; [discriminate|]. split; [intros v0 [= <-] Hv0; contradiction|reflexivity].
    + split; [exact Hv|]. split; [now intros v0 [= <-] _|discriminate].
  - split; [discriminate|]. split; [discriminate|reflexivity].
Qed.

Lemma single_handler_job_id_witness :
  exists w' t,
    run (ServerJs.upload_handler Samples.cfg0
           {| random36 := fun _ => "0.4fzyo82mvyr";
              downstream := fun _ =>
                {| elapsed := 800;
                   outcome := Responded 201 {| jobId := Some "exec-42"; payload := "{}" |} |};
              limit_inclusive := true; max_redirects := 21 |}
           {| req_file := Some (Samples.staged "./uploads/1-x-a.pdf" "a.pdf" 5242880);
              req_files := None; req_body := ∅ |}) (Samples.holding "./uploads/1-x-a.pdf")
    = (Ok (res_json (Uploaded "a.pdf" 5242880 "5.00" t "exec-42")), w')
    /\ length (sent w') = 1%nat.
Proof.
  destruct (single_handler_job_id Samples.cfg0
              {| random36 := fun _ => "0.4fzyo82mvyr";
                 downstream := fun _ =>
                   {| elapsed := 800;
                      outcome := Responded 201 {| jobId := Some "exec-42"; payload := "{}" |} |};
                 limit_inclusive := true; max_redirects := 21 |}
              {| req_file := Some (Samples.staged "./uploads/1-x-a.pdf" "a.pdf" 5242880);
                 req_files := None; req_body := ∅ |}
              (Samples.staged "./uploads/1-x-a.pdf" "a.pdf" 5242880)
              (Samples.holding "./uploads/1-x-a.pdf") _
              (Samples.regular 1700000000000)
              201 {| jobId := Some "exec-42"; payload := "{}" |}
              eq_refl ltac:(discriminate) eq_refl eq_refl eq_refl eq_refl eq_refl)
    as [w' [t [j [Hrun [Hsent [_ [Hgiven _]]]]]]].
  rewrite (Hgiven "exec-42" eq_refl ltac:(discriminate)) in Hrun.
  exists w', t. split; [exact Hrun|]. now rewrite Hsent.
Defined.


